(** * Laufchallenge dashboard (app.py): shallow embedding and verified properties

    The dashboard is one Streamlit script.  Its data part is a pandas
    pipeline: [transform_data] types the sheet's columns and builds the
    weekly and the cumulative per-group tables; the sidebar narrows the
    table by group, runner and week; the remaining sections aggregate the
    table (or its filtered copy) for records, charts and leaderboards.

    Modelling decisions, all taken from the source:
    - a data frame is the list of its rows in index order together with
      the flags of its optional columns ([Gruppe], [Name]);
    - a float is an exact rational; [NaN]/[NaT] is [None]; infinities and
      rounding are outside the model;
    - a sheet cell is modelled by what the pandas parser makes of it: a
      value, or text that the parser rejects ([errors='coerce']);
    - week cells hold whole numbers or rejected text; group and runner
      labels are strings ([get_all_records] returns [''] for blanks);
    - pandas semantics are those of pandas 1.x/2.x ([astype(str)] turns a
      missing float into the text ['nan']). *)

From Stdlib Require Import List String Ascii ZArith QArith Lqa Lia Bool.
From Stdlib Require Import Permutation Sorted DecimalString OrderedTypeEx.
From Stdlib Require DecimalPos DecimalZ.
Import ListNotations.

Set Implicit Arguments.

(** ** Python and pandas primitives used by the script *)

Module Py.

(** [str(n)] for an integer. *)
Definition str (z : Z) : string := NilZero.string_of_int (Z.to_int z).

(** [sep.join(l)]. *)
Definition join (sep : string) (l : list string) : string := String.concat sep l.

Section Sorting.
Variable A : Type.
Variable leb : A -> A -> bool.

Fixpoint insert (x : A) (l : list A) : list A :=
  match l with
  | [] => [x]
  | y :: l' => if leb x y then x :: l else y :: insert x l'
  end.

(** A stable sort: an element is put in front of the first element it
    does not exceed, so equal keys keep their order. *)
Fixpoint sort (l : list A) : list A :=
  match l with
  | [] => []
  | x :: l' => insert x (sort l')
  end.
End Sorting.

(** [sorted(l)] on strings: code point order. *)
Definition sorted (l : list string) : list string := sort String.leb l.

(** Position of [x] in [l] ([len(l)] when absent). *)
Fixpoint index (x : string) (l : list string) : nat :=
  match l with
  | [] => 0
  | y :: l' => if String.eqb x y then 0 else S (index x l')
  end.

(** [x in l]. *)
Definition isin (x : string) (l : list string) : bool :=
  existsb (String.eqb x) l.

End Py.

Module Pd.

(** A sheet cell as the parser sees it. *)
Inductive cell (A : Type) : Type :=
| Good (a : A)
| Bad (s : string).
Arguments Bad {A} s.

(** Parsing with [errors='coerce']: rejected text becomes missing. *)
Definition coerce {A} (c : cell A) : option A :=
  match c with
  | Good a => Some a
  | Bad _ => None
  end.

(** [Series.unique()]: distinct values in order of first appearance. *)
Fixpoint unique (l : list string) : list string :=
  match l with
  | [] => []
  | x :: l' => x :: filter (fun y => negb (String.eqb y x)) (unique l')
  end.

(** A missing number counts as 0 in sums. *)
Definition nan0 (x : option Q) : Q :=
  match x with
  | Some q => q
  | None => 0
  end.

(** [Series.sum()] with [skipna]. *)
Fixpoint nansum (l : list (option Q)) : Q :=
  match l with
  | [] => 0
  | x :: l' => nan0 x + nansum l'
  end.

(** [Series.count()]: the number of values that are not missing. *)
Fixpoint count (l : list (option Q)) : nat :=
  match l with
  | [] => 0
  | Some _ :: l' => S (count l')
  | None :: l' => count l'
  end.

(** [Series.max()] of a non-empty series without missing values. *)
Fixpoint qmax (x : Q) (l : list Q) : Q :=
  match l with
  | [] => x
  | y :: l' => qmax (if Qle_bool x y then y else x) l'
  end.

Fixpoint nmax (x : nat) (l : list nat) : nat :=
  match l with
  | [] => x
  | y :: l' => nmax (Nat.max x y) l'
  end.

(** [Series.idxmax()]: the first position of the largest value, missing
    values skipped; [None] when every value is missing. *)
Fixpoint idxmax_from (i : nat) (best : option (nat * Q)) (l : list (option Q))
  : option nat :=
  match l with
  | [] => option_map fst best
  | None :: l' => idxmax_from (S i) best l'
  | Some q :: l' =>
      match best with
      | None => idxmax_from (S i) (Some (i, q)) l'
      | Some (_, b) =>
          if Qle_bool q b then idxmax_from (S i) best l'
          else idxmax_from (S i) (Some (i, q)) l'
      end
  end.

Definition idxmax (l : list (option Q)) : option nat := idxmax_from 0 None l.

End Pd.

Import Pd.

(** ** 0. Configuration *)

Definition CHALLENGE_KWS : list Z :=
  [45; 46; 47; 48; 49; 50; 51; 52; 1; 2; 3; 4; 5; 6; 7; 8; 9; 10]%Z.

Definition CHALLENGE_KWS_STR : list string := map Py.str CHALLENGE_KWS.

(** ** The sheet and the typed table *)

Record Date : Type := mkDate { day : nat; month : nat; year : nat }.

(** One record of [get_all_records()]. *)
Record RawRow : Type := mkRaw {
  raw_Name : string;
  raw_Gruppe : string;
  raw_KM : cell Q;
  raw_Datum : cell Date;
  raw_KW : cell Z
}.

(** The fetched sheet; column names are taken after [strip()].  The
    columns [Datum] and [KW] are present (pandas raises [KeyError] in
    [transform_data] otherwise). *)
Record RawFrame : Type := mkRawFrame {
  raw_has_KM : bool;
  raw_has_Gruppe : bool;
  raw_has_Name : bool;
  raw_rows : list RawRow
}.

(** A row of [df] after [transform_data]. *)
Record Row : Type := mkRow {
  Name : string;
  Gruppe : string;
  KM : option Q;
  Datum : option Date;
  KW : option Z;
  KW_STR : string
}.

Record DataFrame : Type := mkFrame {
  has_Gruppe : bool;
  has_Name : bool;
  rows : list Row
}.

(** [pd.DataFrame()]. *)
Definition empty_frame : DataFrame := mkFrame false false [].

(** [df.empty]. *)
Definition empty (df : DataFrame) : bool :=
  match rows df with
  | [] => true
  | _ => false
  end.

(** ** 2. transform_data *)

(** No week cell is missing after [errors='coerce'].  One rejected cell
    leaves the whole column as float64. *)
Definition kw_int_dtype (raw : list RawRow) : bool :=
  forallb (fun r => match coerce (raw_KW r) with Some _ => true | None => false end) raw.

(** The value fits [int64], the largest dtype that [downcast='integer']
    tries. *)
Definition fits_int64 (z : Z) : bool :=
  (Z.leb (- 2 ^ 63) z && Z.ltb z (2 ^ 63))%Z.

(** [pd.to_numeric(df['KW'], errors='coerce', downcast='integer')]: the
    column is downcast to an integer dtype only when no cell is missing
    and every week fits the integer dtype; otherwise it stays float64.
    (A week cell holds a whole number by its type; a week such as 45.5,
    which also keeps the column float64, is outside the table type.) *)
Definition kw_downcast (raw : list RawRow) : bool :=
  kw_int_dtype raw
  && forallb (fun r => match coerce (raw_KW r) with
                       | Some z => fits_int64 z
                       | None => false
                       end) raw.

(** [astype(str)] of one week value: an integer column prints [45], a
    float column prints [45.0], and a missing float prints [nan].  (The
    text of a float is [<z>.0] for weeks below 10^16 in absolute value;
    beyond that Python prints an exponent, which is not modelled.) *)
Definition kw_astype_str (int_dtype : bool) (v : option Z) : string :=
  match v with
  | Some z => if int_dtype then Py.str z else (Py.str z ++ ".0")%string
  | None => "nan"%string
  end.

Definition transform_row (int_dtype : bool) (r : RawRow) : Row :=
  let kw := coerce (raw_KW r) in
  mkRow (raw_Name r) (raw_Gruppe r)
        (coerce (raw_KM r))
        (coerce (raw_Datum r))
        kw
        (kw_astype_str int_dtype kw).

(** [df.groupby(key)['KM'].sum()]: one entry per distinct key, keys
    sorted, missing distances skipped. *)
Definition groupby_sum (key : Row -> string) (l : list Row) : list (string * Q) :=
  map (fun k => (k, nansum (map KM (filter (fun r => String.eqb (key r) k) l))))
      (Py.sorted (unique (map key l))).

(** [df.groupby(key)['KM'].count()]. *)
Definition groupby_count (key : Row -> string) (l : list Row) : list (string * nat) :=
  map (fun k => (k, count (map KM (filter (fun r => String.eqb (key r) k) l))))
      (Py.sorted (unique (map key l))).

(** 1. [weekly_summary]: columns [KW_STR], [Wochen-KM]. *)
Definition weekly_summary_of (df : DataFrame) : list (string * Q) :=
  groupby_sum KW_STR (rows df).

(** 2. Rows of the challenge weeks. *)
Definition df_filtered_kws (df : DataFrame) : list Row :=
  filter (fun r => Py.isin (KW_STR r) CHALLENGE_KWS_STR) (rows df).

(** A row of [group_weekly]. *)
Record GroupWeek : Type := mkGW {
  gw_Gruppe : string;
  gw_KW_STR : string;
  gw_KM : Q;
  gw_Kumulierte_KM : Q
}.

(** Order of the keys [(Gruppe, KW_STR)], the week being an ordered
    categorical with categories [CHALLENGE_KWS_STR]. *)
Definition key_leb (a b : string * string) : bool :=
  if String.eqb (fst a) (fst b)
  then Nat.leb (Py.index (snd a) CHALLENGE_KWS_STR) (Py.index (snd b) CHALLENGE_KWS_STR)
  else String.leb (fst a) (fst b).

(** First-appearance distinct pairs. *)
Fixpoint unique2 (l : list (string * string)) : list (string * string) :=
  match l with
  | [] => []
  | x :: l' =>
      x :: filter (fun y => negb (String.eqb (fst y) (fst x) && String.eqb (snd y) (snd x)))
                  (unique2 l')
  end.

(** [groupby(['Gruppe','KW_STR'], observed=True)['KM'].sum().reset_index()]
    followed by [sort_values(['Gruppe','KW_STR'])]: one row per observed
    pair, in key order. *)
Definition group_week_sums (l : list Row) : list (string * string * Q) :=
  map (fun k =>
         (fst k, snd k,
          nansum (map KM (filter (fun r => String.eqb (Gruppe r) (fst k)
                                           && String.eqb (KW_STR r) (snd k)) l))))
      (Py.sort key_leb (unique2 (map (fun r => (Gruppe r, KW_STR r)) l))).

(** [groupby('Gruppe')['KM'].cumsum()]: a running total per group, in row
    order; [acc] holds the total reached so far for every group. *)
Fixpoint groupby_cumsum (acc : string -> Q) (l : list (string * string * Q))
  : list GroupWeek :=
  match l with
  | [] => []
  | (g, w, km) :: l' =>
      let c := acc g + km in
      mkGW g w km c
        :: groupby_cumsum (fun g' => if String.eqb g' g then c else acc g') l'
  end.

Definition group_weekly_of (df : DataFrame) : list GroupWeek :=
  if has_Gruppe df
  then groupby_cumsum (fun _ => 0) (group_week_sums (df_filtered_kws df))
  else [].

Definition transform_data (raw : RawFrame)
  : DataFrame * list (string * Q) * list GroupWeek :=
  if negb (raw_has_KM raw) then (empty_frame, [], [])
  else
    let df := mkFrame (raw_has_Gruppe raw) (raw_has_Name raw)
                      (map (transform_row (kw_downcast (raw_rows raw))) (raw_rows raw)) in
    (df, weekly_summary_of df, group_weekly_of df).

Definition df_of (raw : RawFrame) : DataFrame := fst (fst (transform_data raw)).
Definition weekly_summary (raw : RawFrame) : list (string * Q) := snd (fst (transform_data raw)).
Definition group_weekly (raw : RawFrame) : list GroupWeek := snd (transform_data raw).

(** The script stops with a notice when there is nothing to show. *)
Definition no_data (df : DataFrame) : bool :=
  empty df || Qeq_bool (nansum (map KM (rows df))) 0.

(** ** 3. Sidebar: the three selectors and the filtered table *)

(** What the user picks in the three select boxes.  The week box offers
    the text ['Gesamt'] and the integers of [CHALLENGE_KWS]. *)
Record Choice : Type := mkChoice {
  pick_group : string;
  pick_runner : string;
  pick_kw : string + Z
}.

(** [df[df[col] == v]] for a text column. *)
Definition where_eq (col : Row -> string) (v : string) (df : DataFrame) : DataFrame :=
  mkFrame (has_Gruppe df) (has_Name df)
          (filter (fun r => String.eqb (col r) v) (rows df)).

(** [selected_kw != 'Gesamt']. *)
Definition kw_is_total (sel : string + Z) : bool :=
  match sel with
  | inl s => String.eqb s "Gesamt"
  | inr _ => false
  end.

(** [d[d['KW'] == selected_kw]]: a number equals no text and a missing
    week equals nothing. *)
Definition kw_matches (sel : string + Z) (r : Row) : bool :=
  match sel, KW r with
  | inr z, Some k => Z.eqb k z
  | _, _ => false
  end.

Definition where_kw (sel : string + Z) (df : DataFrame) : DataFrame :=
  mkFrame (has_Gruppe df) (has_Name df) (filter (kw_matches sel) (rows df)).

Definition groups (df : DataFrame) : list string := unique (map Gruppe (rows df)).

Definition group_options (df : DataFrame) : list string :=
  "Alle"%string :: Py.sorted (groups df).

Definition selected_group (df : DataFrame) (ui : Choice) : string :=
  if has_Gruppe df then pick_group ui else "Alle"%string.

(** [df_filtered] after step 1. *)
Definition df_filtered_1 (df : DataFrame) (ui : Choice) : DataFrame :=
  if has_Gruppe df
  then if negb (String.eqb (selected_group df ui) "Alle")
       then where_eq Gruppe (selected_group df ui) df
       else df
  else df.

Definition runners (df : DataFrame) (ui : Choice) : list string :=
  unique (map Name (rows (df_filtered_1 df ui))).

Definition runner_options (df : DataFrame) (ui : Choice) : list string :=
  "Alle"%string :: Py.sorted (runners df ui).

Definition selected_runner (df : DataFrame) (ui : Choice) : string :=
  if has_Name (df_filtered_1 df ui) then pick_runner ui else "Alle"%string.

(** [df_filtered] after step 2. *)
Definition df_filtered_2 (df : DataFrame) (ui : Choice) : DataFrame :=
  let d := df_filtered_1 df ui in
  if has_Name d
  then if negb (String.eqb (selected_runner df ui) "Alle")
       then where_eq Name (selected_runner df ui) d
       else d
  else d.

Definition kw_options : list (string + Z) :=
  inl "Gesamt"%string :: map inr CHALLENGE_KWS.

Definition selected_kw (ui : Choice) : string + Z := pick_kw ui.

(** [df_filtered] after step 3, as the leaderboards and the detail table
    use it. *)
Definition df_filtered (df : DataFrame) (ui : Choice) : DataFrame :=
  let d := df_filtered_2 df ui in
  if negb (kw_is_total (selected_kw ui)) then where_kw (selected_kw ui) d else d.

(** ** 4. Metrics *)

Definition gesamt_km_total (df : DataFrame) : Q := nansum (map KM (rows df)).
Definition anzahl_laeufe_total (df : DataFrame) : nat := List.length (rows df).

(** ** 5. Records *)

Inductive exn : Type :=
| ValueError (msg : string)
| KeyError (msg : string).

Inductive result (A : Type) : Type :=
| Ok (a : A)
| Raise (e : exn).
Arguments Raise {A} e.

Definition bind {A B} (x : result A) (f : A -> result B) : result B :=
  match x with
  | Ok a => f a
  | Raise e => Raise e
  end.

Notation "x <- e ;; k" := (bind e (fun x => k))
  (at level 61, e at next level, right associativity).

Definition two_digits (n : nat) : string :=
  let s := NilZero.string_of_uint (Nat.to_uint n) in
  if Nat.ltb n 10 then ("0" ++ s)%string else s.

(** [Datum.strftime('%d.%m.')]; [NaT] has no [strftime]. *)
Definition strftime_dm (d : option Date) : result string :=
  match d with
  | Some x => Ok (two_digits (day x) ++ "." ++ two_digits (month x) ++ ".")%string
  | None => Raise (ValueError "NaTType does not support strftime")
  end.

(** [df.loc[df['KM'].idxmax()]]. *)
Definition max_km_entry (df : DataFrame) : result Row :=
  match idxmax (map KM (rows df)) with
  | Some i =>
      match nth_error (rows df) i with
      | Some r => Ok r
      | None => Raise (KeyError "idxmax")
      end
  | None => Raise (KeyError "nan")
  end.

Definition runner_runs (df : DataFrame) : list (string * nat) :=
  groupby_count Name (rows df).

Definition most_runs (df : DataFrame) : nat :=
  nmax 0 (map snd (runner_runs df)).

Definition runners_with_max_runs (df : DataFrame) : list string :=
  map fst (filter (fun p => Nat.eqb (snd p) (most_runs df)) (runner_runs df)).

Definition runners_list (df : DataFrame) : string :=
  Py.join ", " (runners_with_max_runs df).

Record Records : Type := mkRecords {
  max_km : Q;
  max_km_runner : string;
  max_km_date : string;
  rec_most_runs : nat;
  rec_runners_list : string
}.

Definition records (df : DataFrame) : result Records :=
  e <- max_km_entry df ;;
  d <- strftime_dm (Datum e) ;;
  Ok (mkRecords (nan0 (KM e)) (Name e) d (most_runs df) (runners_list df)).

(** ** 6. Group comparison chart *)

(** [sort_values(col, ascending=False)] on the summed distance.  Rows with
    equal totals are kept in their previous order here; no statement
    below depends on their order. *)
Definition sort_desc (l : list (string * Q)) : list (string * Q) :=
  Py.sort (fun a b => Qle_bool (snd b) (snd a)) l.

Fixpoint lookup (k : string) (s : list (string * Q)) : option Q :=
  match s with
  | [] => None
  | (k', v) :: s' => if String.eqb k k' then Some v else lookup k s'
  end.

(** [Series.reindex(keys, fill_value=fill)]. *)
Definition reindex (keys : list string) (fill : Q) (s : list (string * Q))
  : list (string * Q) :=
  map (fun k => (k, match lookup k s with Some v => v | None => fill end)) keys.

Definition all_groups (df : DataFrame) : list string := Py.sorted (groups df).

(** [df_base]: the whole table, or its rows of the selected week. *)
Definition df_base (df : DataFrame) (sel : string + Z) : DataFrame :=
  if negb (kw_is_total sel) then where_kw sel df else df.

Definition group_bar_data (df : DataFrame) (sel : string + Z) : list (string * Q) :=
  let base := df_base df sel in
  if negb (empty base)
  then sort_desc (reindex (all_groups df) 0 (groupby_sum Gruppe (rows base)))
  else map (fun g => (g, 0)) (all_groups df).

(** ** 8. Leaderboards *)

(** [ranking['Gesamt-KM'].max() if not ranking.empty else 100]. *)
Definition max_or_100 (ranking : list (string * Q)) : Q :=
  match ranking with
  | [] => 100
  | (_, x) :: l => qmax x (map snd l)
  end.

Definition group_ranking (dff : DataFrame) : list (string * Q) :=
  sort_desc (groupby_sum Gruppe (rows dff)).

Definition max_group_km (dff : DataFrame) : Q := max_or_100 (group_ranking dff).

Definition runner_ranking (dff : DataFrame) : list (string * Q) :=
  firstn 10 (sort_desc (groupby_sum Name (rows dff))).

Definition max_runner_km (dff : DataFrame) : Q := max_or_100 (runner_ranking dff).

(** ** 9. Weekly chart *)

Definition df_base_kw (df : DataFrame) (ui : Choice) : DataFrame :=
  let d1 := if negb (String.eqb (selected_group df ui) "Alle")
            then where_eq Gruppe (selected_group df ui) df else df in
  if negb (String.eqb (selected_runner df ui) "Alle")
  then where_eq Name (selected_runner df ui) d1 else d1.

Definition weekly_summary_chart (df : DataFrame) (ui : Choice) : list (string * Q) :=
  let base := df_base_kw df ui in
  if negb (empty base)
  then reindex CHALLENGE_KWS_STR 0 (groupby_sum KW_STR (rows base))
  else map (fun w => (w, 0)) CHALLENGE_KWS_STR.

(** ** The run of the script through section 5 *)

(** What the script holds when it leaves the records section. *)
Record Progress : Type := mkProgress {
  p_df_filtered : DataFrame;
  p_gesamt_km : Q;
  p_anzahl_laeufe : nat;
  p_records : option Records
}.

(** [run] follows the script from [transform_data] through the sidebar,
    the metrics and the records section (lines 120 to 265).  There the
    script has stopped at the "no data" notice, has ended in an uncaught
    exception, or goes on to the charts and tables of sections 6 to 11,
    which [run] does not follow.  The drawing calls of Streamlit and
    plotly are outside the model, and so are sheets without the columns
    [Datum] and [KW] or with labels that are not text, which the table
    type excludes. *)
Inductive outcome : Type :=
| Stopped
| Uncaught (e : exn)
| PastRecords (p : Progress).

Definition run (raw : RawFrame) (ui : Choice) : outcome :=
  let '(df, _, _) := transform_data raw in
  if no_data df then Stopped
  else
    let dff := df_filtered df ui in
    match (if has_Name df
           then r <- records df ;; Ok (Some r)
           else Ok None) with
    | Raise e => Uncaught e
    | Ok recs =>
        PastRecords (mkProgress dff (gesamt_km_total df) (anzahl_laeufe_total df) recs)
    end.

(** ** Further sections of the script *)

(** 4. [df['Gruppe'].nunique()], the metric "Anzahl Gruppen". *)
Definition anzahl_gruppen (df : DataFrame) : nat := List.length (groups df).

(** 7. [df_base_runner]: the table narrowed by the group and the week
    choice, not by the runner choice. *)
Definition df_base_runner (df : DataFrame) (ui : Choice) : DataFrame :=
  let d1 := if negb (String.eqb (selected_group df ui) "Alle")
            then where_eq Gruppe (selected_group df ui) df else df in
  if negb (kw_is_total (selected_kw ui)) then where_kw (selected_kw ui) d1 else d1.

(** 7. [runner_summary]: the bars of the runner chart. *)
Definition runner_summary (df : DataFrame) (ui : Choice) : list (string * Q) :=
  sort_desc (groupby_sum Name (rows (df_base_runner df ui))).

(** 3. [weekly_summary_filtered]: the weekly sums of the filtered table;
    labels outside the categories become missing and are dropped, the
    rest is sorted by the categorical order. *)
Definition weekly_summary_filtered (df : DataFrame) (ui : Choice) : list (string * Q) :=
  Py.sort (fun a b => Nat.leb (Py.index (fst a) CHALLENGE_KWS_STR)
                              (Py.index (fst b) CHALLENGE_KWS_STR))
          (filter (fun p => Py.isin (fst p) CHALLENGE_KWS_STR)
                  (groupby_sum KW_STR (rows (df_filtered df ui)))).

(** * Reference notions and sample sheets *)

(** Strict code point order on strings. *)
Definition string_lt (a b : string) : Prop := String.leb a b = true /\ a <> b.

Definition qsum (l : list Q) : Q := fold_right Qplus 0 l.

(** The distance a group logged in one week: the sum over the rows of
    that group and week label, missing distances as 0. *)
Definition week_km (l : list Row) (g w : string) : Q :=
  nansum (map KM (filter (fun r => String.eqb (Gruppe r) g && String.eqb (KW_STR r) w) l)).

(** The distance logged in one week by everybody. *)
Definition week_total (l : list Row) (w : string) : Q :=
  nansum (map KM (filter (fun r => String.eqb (KW_STR r) w) l)).

(** The distance a group logged in the whole table. *)
Definition group_km (l : list Row) (g : string) : Q :=
  nansum (map KM (filter (fun r => String.eqb (Gruppe r) g) l)).

(** The challenge weeks up to and including [k], in canonical order. *)
Definition weeks_upto (k : string) : list string :=
  firstn (S (Py.index k CHALLENGE_KWS_STR)) CHALLENGE_KWS_STR.

(** Canonical position of a week label. *)
Definition week_pos (w : string) : nat := Py.index w CHALLENGE_KWS_STR.

(** Number of rows of a runner, whatever their distance. *)
Definition runner_rows (df : DataFrame) (n : string) : nat :=
  List.length (filter (fun r => String.eqb (Name r) n) (rows df)).

(** Number of rows of a runner with a valid distance. *)
Definition runner_valid_rows (df : DataFrame) (n : string) : nat :=
  count (map KM (filter (fun r => String.eqb (Name r) n) (rows df))).

(** The week selector as the specification words it: the sentinel
    followed by the sorted distinct week numbers of the table filtered so
    far. *)
Definition spec_week_options (sentinel : string) (d : DataFrame) : list (string + Z) :=
  inl sentinel
    :: map inr (Py.sort Z.leb
                  (nodup Z.eq_dec
                     (flat_map (fun r => match KW r with Some z => [z] | None => [] end)
                               (rows d)))).

(** The choice that leaves every selector on its first entry. *)
Definition no_choice : Choice := mkChoice "Alle" "Alle" (inl "Gesamt"%string).

Definition a_date : cell Date := Good (mkDate 3 11 2025).

(** Two runs, the second with an empty week cell. *)
Definition sheet_bad_week : RawFrame :=
  mkRawFrame true true true
    [ mkRaw "A" "X" (Good 5) a_date (Good 45%Z);
      mkRaw "B" "X" (Good 3) a_date (Bad "") ].

(** One run whose date cell is not a date. *)
Definition sheet_bad_date : RawFrame :=
  mkRawFrame true true true
    [ mkRaw "A" "X" (Good 5) (Bad "n/a") (Good 45%Z) ].

(** Runner A logs two runs, one with the distance ['abc']; B logs one. *)
Definition sheet_bad_km : RawFrame :=
  mkRawFrame true true true
    [ mkRaw "A" "X" (Bad "abc") a_date (Good 47%Z);
      mkRaw "A" "X" (Good 5) a_date (Good 47%Z);
      mkRaw "B" "X" (Good 3) a_date (Good 47%Z) ].

(** A and B log two runs each; one distance of A is ['abc']. *)
Definition sheet_tie : RawFrame :=
  mkRawFrame true true true
    [ mkRaw "A" "X" (Bad "abc") a_date (Good 47%Z);
      mkRaw "A" "X" (Good 5) a_date (Good 47%Z);
      mkRaw "B" "X" (Good 3) a_date (Good 47%Z);
      mkRaw "B" "X" (Good 4) a_date (Good 48%Z) ].

(** Group X logs 5 km in week 45 and 3 km in week 20, which is outside
    the challenge. *)
Definition sheet_off_week : RawFrame :=
  mkRawFrame true true true
    [ mkRaw "A" "X" (Good 5) a_date (Good 45%Z);
      mkRaw "A" "X" (Good 3) a_date (Good 20%Z) ].

(** Group X has data only in weeks 1 and 46 (week 1 entered first). *)
Definition sheet_wrap : RawFrame :=
  mkRawFrame true true true
    [ mkRaw "A" "X" (Good 5) a_date (Good 1%Z);
      mkRaw "B" "X" (Good 3) a_date (Good 46%Z) ].

(** Twelve runners with distinct totals and one group. *)
Definition sheet_twelve : RawFrame :=
  mkRawFrame true true true
    (map (fun p => mkRaw (fst p) "X" (Good (inject_Z (snd p))) a_date (Good 45%Z))
         [ ("a", 1); ("b", 2); ("c", 3); ("d", 4); ("e", 5); ("f", 6);
           ("g", 7); ("h", 8); ("i", 9); ("j", 10); ("k", 11); ("l", 12) ]%string%Z).

(** ** Notions used in the proofs *)

(** The row belongs to the key (group, week label). *)
Definition pair_is (k : string * string) (r : Row) : bool :=
  String.eqb (Gruppe r) (fst k) && String.eqb (KW_STR r) (snd k).

(** The distance column of a row of the grouped sums. *)
Definition km_of (t : string * string * Q) : Q := snd t.

(** The group column of a row of the grouped sums. *)
Definition group_of (t : string * string * Q) : string := fst (fst t).

(** The order in which the grouped keys are listed. *)
Definition key_le (a b : string * string) : Prop := key_leb a b = true.

(** The keys of the grouped sums: the pairs (group, week label) that occur,
    in key order. *)
Definition observed_keys (l : list Row) : list (string * string) :=
  Py.sort key_leb (unique2 (map (fun r => (Gruppe r, KW_STR r)) l)).

(** The key of a row of [group_weekly]. *)
Definition gw_key (e : GroupWeek) : string * string := (gw_Gruppe e, gw_KW_STR e).

(** The distance filed under a key of the challenge-week rows. *)
Definition key_km (df : DataFrame) (k : string * string) : Q :=
  nansum (map KM (filter (pair_is k) (df_filtered_kws df))).

(** In [group_weekly] a row comes before another when its group is
    smaller, or the group is the same and its week is earlier in the
    canonical order. *)
Definition gw_before (e1 e2 : GroupWeek) : Prop :=
  string_lt (gw_Gruppe e1) (gw_Gruppe e2) \/
  (gw_Gruppe e1 = gw_Gruppe e2 /\ (week_pos (gw_KW_STR e1) < week_pos (gw_KW_STR e2))%nat).

(** The distance a group logged in the challenge weeks. *)
Definition challenge_km (l : list Row) (g : string) : Q :=
  nansum (map KM (filter (fun r => String.eqb (Gruppe r) g
                                   && Py.isin (KW_STR r) CHALLENGE_KWS_STR) l)).

(** [a] ranks at least as high as [b]. *)
Definition at_least (a b : string * Q) : Prop := snd b <= snd a.

(** The progress bars of a ranking are scaled to [m]: 100 for an empty
    ranking, otherwise the largest total shown. *)
Definition scaled_to (ranking : list (string * Q)) (m : Q) : Prop :=
  match ranking with
  | [] => m = 100
  | _ => (exists p, In p ranking /\ snd p = m) /\ forall p, In p ranking -> snd p <= m
  end.

(** A row passes the three selectors: each one either is not offered (its
    column is absent), stands on its first entry, or equals the row's
    value. *)
Definition passes (df : DataFrame) (ui : Choice) (r : Row) : bool :=
  (negb (has_Gruppe df) || String.eqb (pick_group ui) "Alle"
   || String.eqb (Gruppe r) (pick_group ui))
  && (negb (has_Name df) || String.eqb (pick_runner ui) "Alle"
      || String.eqb (Name r) (pick_runner ui))
  && (kw_is_total (pick_kw ui) || kw_matches (pick_kw ui) r).

(** Three runs of two runners in two groups. *)
Definition sheet_two_runners : RawFrame :=
  mkRawFrame true true true
    [ mkRaw "A" "X" (Good 4) a_date (Good 45%Z);
      mkRaw "B" "X" (Good 6) a_date (Good 46%Z);
      mkRaw "A" "Y" (Good 2) a_date (Good 46%Z) ].

(** Two runs whose distance cells are text. *)
Definition sheet_no_distance : RawFrame :=
  mkRawFrame true true true
    [ mkRaw "A" "X" (Bad "zehn") a_date (Good 45%Z);
      mkRaw "B" "Y" (Bad "") a_date (Good 46%Z) ].

(** * Properties *)

(** ** Sorting *)

Section SortFacts.
Variable A : Type.
Variable leb : A -> A -> bool.

Lemma insert_perm (x : A) (l : list A) : Permutation (Py.insert leb x l) (x :: l).
Proof.
  induction l as [|y l IH]; simpl.
  - apply Permutation_refl.
  - destruct (leb x y).
    + apply Permutation_refl.
    + eapply perm_trans; [apply perm_skip, IH | apply perm_swap].
Qed.

Lemma sort_perm (l : list A) : Permutation (Py.sort leb l) l.
Proof.
  induction l as [|x l IH]; simpl.
  - constructor.
  - eapply perm_trans; [apply insert_perm | apply perm_skip, IH].
Qed.

Lemma sort_In (l : list A) (x : A) : In x (Py.sort leb l) <-> In x l.
Proof.
  split; apply Permutation_in; [|apply Permutation_sym]; apply sort_perm.
Qed.

Lemma sort_length (l : list A) : List.length (Py.sort leb l) = List.length l.
Proof. apply Permutation_length, sort_perm. Qed.

Lemma sort_NoDup (l : list A) : NoDup l -> NoDup (Py.sort leb l).
Proof.
  intro H. eapply Permutation_NoDup; [apply Permutation_sym, sort_perm | exact H].
Qed.

Hypothesis leb_total : forall a b, leb a b = true \/ leb b a = true.
Hypothesis leb_trans : forall a b c, leb a b = true -> leb b c = true -> leb a c = true.

Let le (a b : A) : Prop := leb a b = true.

Lemma insert_sorted (x : A) (l : list A) :
  StronglySorted le l -> StronglySorted le (Py.insert leb x l).
Proof.
  induction 1 as [|y l Hs IH Hall]; simpl.
  - repeat constructor.
  - destruct (leb x y) eqn:E.
    + constructor; [constructor; assumption|].
      constructor; [exact E|].
      rewrite Forall_forall in *. intros z Hz. eapply leb_trans; [exact E|]. now apply Hall.
    + constructor; [exact IH|].
      rewrite Forall_forall in *. intros z Hz.
      apply (Permutation_in _ (insert_perm x l)) in Hz. destruct Hz as [<-|Hz].
      * destruct (leb_total x y) as [H1|H1]; [congruence | exact H1].
      * now apply Hall.
Qed.

Lemma sort_sorted (l : list A) : StronglySorted le (Py.sort leb l).
Proof.
  induction l as [|x l IH]; simpl; [constructor | now apply insert_sorted].
Qed.
End SortFacts.

(** Two lists sorted by a strict order with the same elements are equal. *)
Lemma sorted_ext (A : Type) (lt : A -> A -> Prop) :
  (forall a, ~ lt a a) ->
  (forall a b c, lt a b -> lt b c -> lt a c) ->
  forall l1 l2 : list A,
    StronglySorted lt l1 -> StronglySorted lt l2 ->
    (forall x, In x l1 <-> In x l2) -> l1 = l2.
Proof.
  intros Hirr Htr l1. induction l1 as [|a l1 IH]; intros l2 H1 H2 Hin.
  - destruct l2 as [|b l2]; [reflexivity|]. exfalso. apply (Hin b). now left.
  - destruct l2 as [|b l2]; [exfalso; apply (Hin a); now left|].
    apply StronglySorted_inv in H1 as [H1 Ha]. apply StronglySorted_inv in H2 as [H2 Hb].
    rewrite Forall_forall in Ha, Hb.
    assert (a = b) as ->.
    { destruct (proj1 (Hin a) (or_introl eq_refl)) as [E|E]; [now symmetry|].
      destruct (proj2 (Hin b) (or_introl eq_refl)) as [E'|E']; [exact E'|].
      exfalso. apply (Hirr a). eapply Htr; [apply Ha, E' | apply Hb, E]. }
    f_equal. apply IH; try assumption.
    intro x. split; intro Hx.
    + destruct (proj1 (Hin x) (or_intror Hx)) as [E|E]; [|exact E].
      subst x. exfalso. apply (Hirr b). now apply Ha.
    + destruct (proj2 (Hin x) (or_intror Hx)) as [E|E]; [|exact E].
      subst x. exfalso. apply (Hirr b). now apply Hb.
Qed.

(** ** String order *)

Lemma string_leb_iff (a b : string) :
  String.leb a b = true <-> a = b \/ String_as_OT.lt a b.
Proof.
  unfold String.leb. destruct (String.compare a b) eqn:E.
  - split; [intros _; left; now apply String_as_OT.cmp_eq | reflexivity].
  - split; [intros _; right; now apply String_as_OT.cmp_lt | reflexivity].
  - split; [discriminate|]. intros [->|H].
    + assert (String.compare b b = Eq) by now apply String_as_OT.cmp_eq. congruence.
    + apply String_as_OT.cmp_lt in H. unfold String_as_OT.cmp in H. congruence.
Qed.

Lemma string_leb_trans (a b c : string) :
  String.leb a b = true -> String.leb b c = true -> String.leb a c = true.
Proof.
  rewrite !string_leb_iff. intros [->|H1] [->|H2]; auto.
  right. eapply String_as_OT.lt_trans; eassumption.
Qed.

Lemma string_leb_refl (a : string) : String.leb a a = true.
Proof. apply string_leb_iff. now left. Qed.

Lemma string_lt_irrefl (a : string) : ~ string_lt a a.
Proof. intros [_ H]. now apply H. Qed.

Lemma string_lt_trans (a b c : string) : string_lt a b -> string_lt b c -> string_lt a c.
Proof.
  intros [H1 N1] [H2 N2]. split; [eapply string_leb_trans; eassumption|].
  intros ->. apply N1. now apply String.leb_antisym.
Qed.

(** ** [unique] *)

Lemma unique_In (l : list string) (x : string) : In x (unique l) <-> In x l.
Proof.
  induction l as [|y l IH]; simpl; [tauto|].
  rewrite filter_In, IH, negb_true_iff, String.eqb_neq.
  destruct (String.eqb_spec x y) as [->|N]; [tauto|].
  split; [intros [E|[H _]]; [now left | now right] | intros [E|H]; [now left | right; now split]].
Qed.

Lemma NoDup_filter (A : Type) (f : A -> bool) (l : list A) : NoDup l -> NoDup (filter f l).
Proof.
  induction 1 as [|x l Hx H IH]; simpl; [constructor|].
  destruct (f x); [constructor; [rewrite filter_In; tauto | exact IH] | exact IH].
Qed.

Lemma unique_NoDup (l : list string) : NoDup (unique l).
Proof.
  induction l as [|y l IH]; simpl; constructor.
  - rewrite filter_In, String.eqb_refl. simpl. intros [_ H]. discriminate.
  - now apply NoDup_filter.
Qed.

Lemma StronglySorted_strict (A : Type) (le : A -> A -> Prop) (l : list A) :
  StronglySorted le l -> NoDup l -> StronglySorted (fun a b => le a b /\ a <> b) l.
Proof.
  induction 1 as [|x l Hs IH Hall]; intro Hnd; constructor.
  - apply IH. now inversion Hnd.
  - inversion Hnd as [|? ? Hx _]; subst. rewrite Forall_forall in *.
    intros y Hy. split; [now apply Hall | intros ->; now apply Hx].
Qed.

(** [sorted(unique(l))] is strictly increasing and holds the values of [l]. *)
Lemma sorted_unique_sorted (l : list string) :
  StronglySorted string_lt (Py.sorted (unique l)).
Proof.
  apply StronglySorted_strict.
  - apply sort_sorted; [apply String.leb_total | apply string_leb_trans].
  - apply sort_NoDup, unique_NoDup.
Qed.

Lemma sorted_unique_In (l : list string) (x : string) :
  In x (Py.sorted (unique l)) <-> In x l.
Proof. unfold Py.sorted. now rewrite sort_In, unique_In. Qed.

(** ** Week labels *)

Lemma str_not_nan (z : Z) : Py.str z <> "nan"%string.
Proof.
  unfold Py.str. destruct (Z.to_int z) as [d|d]; destruct d; simpl; discriminate.
Qed.

Lemma str_float_not_nan (z : Z) : (Py.str z ++ ".0")%string <> "nan"%string.
Proof.
  unfold Py.str. destruct (Z.to_int z) as [d|d]; destruct d; simpl; discriminate.
Qed.

Lemma kw_astype_str_nan (b : bool) (v : option Z) :
  kw_astype_str b v = "nan"%string <-> v = None.
Proof.
  destruct v as [z|]; simpl; [|tauto].
  split; [|discriminate]. destruct b; intro H; exfalso.
  - now apply (str_not_nan z).
  - now apply (str_float_not_nan z).
Qed.

Lemma nan_not_challenge_week : Py.isin "nan" CHALLENGE_KWS_STR = false.
Proof. reflexivity. Qed.

Lemma isin_In (x : string) (l : list string) : Py.isin x l = true <-> In x l.
Proof.
  unfold Py.isin. rewrite existsb_exists. split.
  - intros [y [Hy E]]. apply String.eqb_eq in E. now subst.
  - intro H. exists x. split; [exact H | apply String.eqb_refl].
Qed.

(** Rows of the typed table carry a week label derived from their week. *)
Lemma transform_rows_label (raw : RawFrame) (r : Row) :
  raw_has_KM raw = true -> In r (rows (df_of raw)) ->
  KW_STR r = kw_astype_str (kw_downcast (raw_rows raw)) (KW r).
Proof.
  intros HK. unfold df_of, transform_data. rewrite HK. simpl.
  rewrite in_map_iff. intros [x [<- _]]. reflexivity.
Qed.

(** ** The rows of [group_weekly] *)

Lemma groupby_cumsum_keys (acc : string -> Q) (l : list (string * string * Q)) :
  map (fun e => (gw_Gruppe e, gw_KW_STR e, gw_KM e)) (groupby_cumsum acc l) = l.
Proof.
  revert acc. induction l as [|[[g w] km] l IH]; intro acc; simpl; [reflexivity|].
  now rewrite IH.
Qed.

Lemma unique2_In (l : list (string * string)) (x : string * string) :
  In x (unique2 l) <-> In x l.
Proof.
  induction l as [|y l IH]; simpl; [tauto|].
  rewrite filter_In, IH, negb_true_iff, andb_false_iff, !String.eqb_neq.
  destruct x as [a b], y as [c d]. simpl.
  destruct (String.eqb_spec a c) as [->|N1]; destruct (String.eqb_spec b d) as [->|N2].
  - split; [now left | intros _; now left].
  - split; [intros [E|[H _]]; [now left | now right] | intros [E|H]; [now left|]].
    right. split; [exact H | now right].
  - split; [intros [E|[H _]]; [now left | now right] | intros [E|H]; [now left|]].
    right. split; [exact H | now left].
  - split; [intros [E|[H _]]; [now left | now right] | intros [E|H]; [now left|]].
    right. split; [exact H | now left].
Qed.

Lemma unique2_NoDup (l : list (string * string)) : NoDup (unique2 l).
Proof.
  induction l as [|y l IH]; simpl; constructor.
  - rewrite filter_In, !String.eqb_refl. simpl. intros [_ H]. discriminate.
  - now apply NoDup_filter.
Qed.

(** The keys of [group_week_sums] are the observed pairs. *)
Lemma group_week_sums_In (l : list Row) (g w : string) (km : Q) :
  In (g, w, km) (group_week_sums l) ->
  exists r, In r l /\ Gruppe r = g /\ KW_STR r = w.
Proof.
  unfold group_week_sums. rewrite in_map_iff. intros [[a b] [E H]].
  simpl in E. injection E as -> -> _.
  apply sort_In, unique2_In, in_map_iff in H. destruct H as [r [E Hr]].
  injection E as <- <-. now exists r.
Qed.

Lemma group_weekly_In (df : DataFrame) (e : GroupWeek) :
  In e (group_weekly_of df) ->
  exists r, In r (df_filtered_kws df) /\ Gruppe r = gw_Gruppe e /\ KW_STR r = gw_KW_STR e.
Proof.
  unfold group_weekly_of. destruct (has_Gruppe df); [|intros []].
  intro H. apply (in_map (fun e => (gw_Gruppe e, gw_KW_STR e, gw_KM e))) in H.
  rewrite groupby_cumsum_keys in H. now apply group_week_sums_In in H.
Qed.

Lemma group_weekly_week_In (df : DataFrame) (e : GroupWeek) :
  In e (group_weekly_of df) -> In (gw_KW_STR e) CHALLENGE_KWS_STR.
Proof.
  intro H. apply group_weekly_In in H as [r [Hr [_ <-]]].
  unfold df_filtered_kws in Hr. apply filter_In in Hr as [_ Hr]. now apply isin_In.
Qed.

(** The sum that [groupby_sum] files under a key it lists. *)
Lemma groupby_sum_In (key : Row -> string) (l : list Row) (k : string) :
  In k (map key l) ->
  In (k, nansum (map KM (filter (fun r => String.eqb (key r) k) l))) (groupby_sum key l).
Proof.
  intro H. unfold groupby_sum.
  apply (in_map (fun k => (k, nansum (map KM (filter (fun r => String.eqb (key r) k) l))))).
  now apply sorted_unique_In.
Qed.

(** ** C10 *)

(** C10.  A row whose week cell is rejected gets the week label ['nan'];
    the weekly totals of the whole table then hold a ['nan'] bucket with
    the summed distance of exactly those rows; no such row reaches the
    challenge-week rows, and no row of the cumulative group table carries
    the label ['nan']. *)
Theorem unparseable_week_label_nan (raw : RawFrame) :
  raw_has_KM raw = true ->
  (forall r, In r (rows (df_of raw)) -> KW r = None -> KW_STR r = "nan"%string) /\
  ((exists r, In r (rows (df_of raw)) /\ KW r = None) ->
   In ("nan"%string,
       nansum (map KM (filter (fun r => match KW r with None => true | Some _ => false end)
                              (rows (df_of raw)))))
      (weekly_summary raw)) /\
  (forall r, In r (df_filtered_kws (df_of raw)) -> KW r <> None) /\
  (forall e, In e (group_weekly raw) -> gw_KW_STR e <> "nan"%string).
Proof.
  intro HK.
  assert (Hlab : forall r, In r (rows (df_of raw)) -> KW r = None -> KW_STR r = "nan"%string).
  { intros r Hr Hn. rewrite (transform_rows_label raw r HK Hr). now apply kw_astype_str_nan. }
  assert (Hgw : group_weekly raw = group_weekly_of (df_of raw)).
  { unfold group_weekly, df_of, transform_data. rewrite HK. reflexivity. }
  assert (Hws : weekly_summary raw = weekly_summary_of (df_of raw)).
  { unfold weekly_summary, df_of, transform_data. rewrite HK. reflexivity. }
  split; [exact Hlab|]. split; [|split].
  - intros [r [Hr Hn]]. rewrite Hws. unfold weekly_summary_of.
    replace (filter (fun r0 => match KW r0 with None => true | Some _ => false end)
                    (rows (df_of raw)))
      with (filter (fun r0 => String.eqb (KW_STR r0) "nan") (rows (df_of raw))).
    + apply groupby_sum_In. apply in_map_iff. exists r. split; [now apply Hlab | exact Hr].
    + apply filter_ext_in. intros x Hx.
      rewrite (transform_rows_label raw x HK Hx).
      destruct (KW x) as [z|] eqn:E; simpl; [|reflexivity].
      apply String.eqb_neq. intro H.
      apply (proj1 (kw_astype_str_nan (kw_downcast (raw_rows raw)) (Some z))) in H. discriminate.
  - intros r Hr Hn. unfold df_filtered_kws in Hr. apply filter_In in Hr as [Hr Hin].
    rewrite (Hlab r Hr Hn), nan_not_challenge_week in Hin. discriminate.
  - intros e He E. rewrite Hgw in He. apply group_weekly_week_In in He.
    rewrite E in He. apply isin_In in He. rewrite nan_not_challenge_week in He. discriminate.
Qed.

(** The sheet with one empty week cell: its weekly totals hold the
    ['nan'] bucket with that row's 3 km. *)
Lemma unparseable_week_label_nan_witness :
  raw_has_KM sheet_bad_week = true /\
  In ("nan"%string, 3 + 0) (weekly_summary sheet_bad_week).
Proof.
  split; [reflexivity|].
  refine (proj1 (proj2 (unparseable_week_label_nan sheet_bad_week eq_refl)) _).
  exists (mkRow "B" "X" (Some 3) (Some (mkDate 3 11 2025)) None "nan").
  split; [right; left; reflexivity | reflexivity].
Defined.

(** ** C8 *)

(** C8.  With the three selectors on ['Alle'], ['Alle'] and ['Gesamt'] the
    filtered table is the input table, row for row. *)
Theorem filter_all_is_identity (df : DataFrame) :
  df_filtered df (mkChoice "Alle" "Alle" (inl "Gesamt"%string)) = df /\
  rows (df_filtered df (mkChoice "Alle" "Alle" (inl "Gesamt"%string))) = rows df.
Proof.
  assert (H : df_filtered df (mkChoice "Alle" "Alle" (inl "Gesamt"%string)) = df).
  { unfold df_filtered, df_filtered_2, selected_runner, df_filtered_1, selected_group, selected_kw.
    simpl. destruct (has_Gruppe df); simpl; destruct (has_Name df); reflexivity. }
  split; [exact H | now rewrite H].
Qed.

(** ** C6 *)

(** C6.  A bad cell is not always recovered locally.  On a sheet whose
    only run has a date cell that is not a date, the row is kept and its
    distance is in every sum, but the records section calls [strftime] on
    the missing date of the longest run and the run of the script ends in
    an uncaught [ValueError], whatever the selectors show.  On a sheet
    with one empty week cell the week column stays a float column, every
    other row is labelled like [45.0], and the cumulative group table is
    empty. *)
Theorem bad_cell_not_recovered_locally (ui : Choice) :
  rows (df_of sheet_bad_date)
    = [ mkRow "A" "X" (Some 5) None (Some 45%Z) "45" ] /\
  gesamt_km_total (df_of sheet_bad_date) == 5 /\
  weekly_summary sheet_bad_date = [ ("45"%string, 5 + 0) ] /\
  no_data (df_of sheet_bad_date) = false /\
  records (df_of sheet_bad_date) = Raise (ValueError "NaTType does not support strftime") /\
  run sheet_bad_date ui = Uncaught (ValueError "NaTType does not support strftime") /\
  map KW_STR (rows (df_of sheet_bad_week)) = [ "45.0"; "nan" ]%string /\
  group_weekly sheet_bad_week = [].
Proof.
  repeat split; reflexivity.
Qed.

(** ** C3 *)

(** C3.  Runner A has two rows, one with the distance ['abc']; the tally
    of the "most entries" record counts only A's row with a valid
    distance, so A is shown level with B at one run. *)
Theorem invalid_distance_row_not_counted :
  runner_rows (df_of sheet_bad_km) "A" = 2%nat /\
  anzahl_laeufe_total (df_of sheet_bad_km) = 3%nat /\
  runner_runs (df_of sheet_bad_km) = [ ("A"%string, 1%nat); ("B"%string, 1%nat) ] /\
  most_runs (df_of sheet_bad_km) = 1%nat /\
  runners_list (df_of sheet_bad_km) = "A, B"%string.
Proof.
  repeat split; reflexivity.
Qed.

(** ** C7 *)

Lemma nmax_ge (x : nat) (l : list nat) :
  (x <= nmax x l)%nat /\ (forall y, In y l -> (y <= nmax x l)%nat).
Proof.
  revert x. induction l as [|z l IH]; intro x; simpl.
  - split; [lia | intros y []].
  - destruct (IH (Nat.max x z)) as [H1 H2]. split; [lia|].
    intros y [<-|Hy]; [lia | now apply H2].
Qed.

Lemma runner_runs_In (df : DataFrame) (n : string) (c : nat) :
  In (n, c) (runner_runs df) <->
  In n (map Name (rows df)) /\ c = runner_valid_rows df n.
Proof.
  unfold runner_runs, groupby_count, runner_valid_rows. rewrite in_map_iff. split.
  - intros [k [E Hk]]. injection E as -> ->. split; [now apply sorted_unique_In | reflexivity].
  - intros [H ->]. exists n. split; [reflexivity | now apply sorted_unique_In].
Qed.

(** C7.  The record lists every runner whose tally equals the largest
    tally, and the tally is the number of rows with a valid distance.
    On a sheet where A and B have two rows each and one distance of A is
    ['abc'], only B is listed. *)
Theorem most_runs_ties_by_valid_rows :
  (forall df n,
      In n (runners_with_max_runs df) <->
      In n (map Name (rows df)) /\ runner_valid_rows df n = most_runs df) /\
  (forall df n, In n (map Name (rows df)) -> (runner_valid_rows df n <= most_runs df)%nat) /\
  runner_rows (df_of sheet_tie) "A" = 2%nat /\
  runner_rows (df_of sheet_tie) "B" = 2%nat /\
  runner_runs (df_of sheet_tie) = [ ("A"%string, 1%nat); ("B"%string, 2%nat) ] /\
  runners_with_max_runs (df_of sheet_tie) = [ "B"%string ].
Proof.
  split; [|split; [|repeat split; reflexivity]].
  - intros df n. unfold runners_with_max_runs. rewrite in_map_iff. split.
    + intros [[m c] [E H]]. simpl in E. subst m.
      apply filter_In in H as [H Hc]. simpl in Hc. apply Nat.eqb_eq in Hc.
      apply runner_runs_In in H as [H ->]. now split.
    + intros [H E]. exists (n, runner_valid_rows df n). split; [reflexivity|].
      apply filter_In. split; [now apply runner_runs_In | simpl; now apply Nat.eqb_eq].
  - intros df n H. unfold most_runs.
    apply (proj2 (nmax_ge 0 (map snd (runner_runs df)))).
    apply in_map_iff. exists (n, runner_valid_rows df n). split; [reflexivity|].
    now apply runner_runs_In.
Qed.

(** ** C5 *)

Lemma df_filtered_1_rows (df : DataFrame) (ui : Choice) :
  rows (df_filtered_1 df ui)
  = if has_Gruppe df && negb (String.eqb (pick_group ui) "Alle")
    then filter (fun r => String.eqb (Gruppe r) (pick_group ui)) (rows df)
    else rows df.
Proof.
  unfold df_filtered_1, selected_group.
  destruct (has_Gruppe df); simpl; [|reflexivity].
  destruct (String.eqb (pick_group ui) "Alle"); reflexivity.
Qed.

(** C5 as stated fails: the week selector does not list the weeks of the
    filtered table.  On a sheet with runs in weeks 45 and 20 only, the
    options are ['Gesamt'] and the eighteen challenge weeks, whatever the
    sentinel is taken to be. *)
Lemma week_options_not_from_table :
  spec_week_options "Alle" (df_filtered_2 (df_of sheet_off_week) no_choice)
    = [ inl "Alle"%string; inr 20%Z; inr 45%Z ] /\
  forall sentinel,
    kw_options <> spec_week_options sentinel (df_filtered_2 (df_of sheet_off_week) no_choice).
Proof.
  split; [reflexivity|]. intros s H. vm_compute in H. discriminate H.
Qed.

(** C5, amended.  The group selector offers ['Alle'] and then the distinct
    group labels of the whole table in increasing order; the runner
    selector offers ['Alle'] and then the distinct names of the table
    narrowed by the group choice, in increasing order; the week selector
    offers ['Gesamt'] and then the challenge weeks in canonical order,
    independently of the table. *)
Theorem selector_options (df : DataFrame) (ui : Choice) :
  (exists l, group_options df = "Alle"%string :: l /\
             StronglySorted string_lt l /\
             forall g, In g l <-> exists r, In r (rows df) /\ Gruppe r = g) /\
  (exists l, runner_options df ui = "Alle"%string :: l /\
             StronglySorted string_lt l /\
             forall n, In n l <->
                       exists r, In r (rows df) /\ Name r = n /\
                                 (has_Gruppe df = true -> pick_group ui <> "Alle"%string ->
                                  Gruppe r = pick_group ui)) /\
  kw_options = inl "Gesamt"%string :: map inr CHALLENGE_KWS.
Proof.
  split; [|split; [|reflexivity]].
  - exists (Py.sorted (groups df)). split; [reflexivity|]. split.
    + apply sorted_unique_sorted.
    + intro g. unfold groups. rewrite sorted_unique_In, in_map_iff.
      split; intros [r [H1 H2]]; exists r; tauto.
  - exists (Py.sorted (runners df ui)). split; [reflexivity|]. split.
    + apply sorted_unique_sorted.
    + intro n. unfold runners. rewrite sorted_unique_In, in_map_iff, df_filtered_1_rows.
      destruct (has_Gruppe df); simpl.
      * destruct (String.eqb_spec (pick_group ui) "Alle") as [E|N]; simpl.
        -- split; [intros [r [H1 H2]]; exists r; repeat split; try assumption; intros _ C; now elim C
                  | intros [r [H1 [H2 _]]]; now exists r].
        -- split.
           ++ intros [r [H1 H2]]. apply filter_In in H2 as [H2 H3]. apply String.eqb_eq in H3.
              exists r. split; [exact H2 | split; [exact H1 | intros _ _; exact H3]].
           ++ intros [r [H1 [H2 H3]]]. exists r. split; [exact H2|].
              apply filter_In. split; [exact H1|]. apply String.eqb_eq. now apply H3.
      * split; [intros [r [H1 H2]]; exists r; repeat split; try assumption; intro C; discriminate C
               | intros [r [H1 [H2 _]]]; now exists r].
Qed.

(** ** Sums *)

Lemma nansum_app (l1 l2 : list (option Q)) : nansum (l1 ++ l2) == nansum l1 + nansum l2.
Proof.
  induction l1 as [|x l1 IH]; simpl; [ring | rewrite IH; ring].
Qed.

Lemma qsum_app (l1 l2 : list Q) : qsum (l1 ++ l2) == qsum l1 + qsum l2.
Proof.
  induction l1 as [|x l1 IH]; simpl; [ring | rewrite IH; ring].
Qed.

Lemma qsum_perm (l1 l2 : list Q) : Permutation l1 l2 -> qsum l1 == qsum l2.
Proof.
  induction 1 as [|x l1 l2 _ IH|x y l|l1 l2 l3 _ IH1 _ IH2]; simpl.
  - reflexivity.
  - now rewrite IH.
  - ring.
  - now rewrite IH1.
Qed.

Lemma qsum_map_ext (A : Type) (f g : A -> Q) (l : list A) :
  (forall x, In x l -> f x == g x) -> qsum (map f l) == qsum (map g l).
Proof.
  induction l as [|x l IH]; intro H; simpl; [reflexivity|].
  rewrite (H x (or_introl eq_refl)), IH; [reflexivity|].
  intros y Hy. apply H. now right.
Qed.

Lemma qsum_map_zero (A : Type) (f : A -> Q) (l : list A) :
  (forall x, In x l -> f x == 0) -> qsum (map f l) == 0.
Proof.
  induction l as [|x l IH]; intro H; simpl; [reflexivity|].
  rewrite (H x (or_introl eq_refl)), IH; [ring|].
  intros y Hy. apply H. now right.
Qed.

Lemma qsum_map_nonneg (A : Type) (f : A -> Q) (l : list A) :
  (forall x, In x l -> 0 <= f x) -> 0 <= qsum (map f l).
Proof.
  induction l as [|x l IH]; intro H; simpl; [lra|].
  assert (0 <= f x) by (apply H; now left).
  assert (0 <= qsum (map f l)) by (apply IH; intros y Hy; apply H; now right).
  lra.
Qed.

Lemma nansum_nonneg (l : list (option Q)) :
  (forall q, In (Some q) l -> 0 <= q) -> 0 <= nansum l.
Proof.
  induction l as [|x l IH]; intro H; simpl; [lra|].
  assert (0 <= nansum l) by (apply IH; intros q Hq; apply H; now right).
  destruct x as [q|]; simpl; [|lra].
  assert (0 <= q) by (apply H; now left). lra.
Qed.

(** Summing a filtered column over two disjoint conditions. *)
Lemma nansum_filter_or (p q : Row -> bool) (l : list Row) :
  (forall r, In r l -> p r = true -> q r = true -> False) ->
  nansum (map KM (filter (fun r => p r || q r) l))
  == nansum (map KM (filter p l)) + nansum (map KM (filter q l)).
Proof.
  induction l as [|r l IH]; intro H; simpl; [ring|].
  assert (IH' := IH (fun x Hx => H x (or_intror Hx))).
  destruct (p r) eqn:Ep, (q r) eqn:Eq; simpl.
  - exfalso. now apply (H r (or_introl eq_refl)).
  - rewrite IH'. ring.
  - rewrite IH'. ring.
  - exact IH'.
Qed.

Lemma filter_none (A : Type) (p : A -> bool) (l : list A) :
  (forall x, In x l -> p x = false) -> filter p l = [].
Proof.
  induction l as [|x l IH]; intro H; simpl; [reflexivity|].
  rewrite (H x (or_introl eq_refl)). apply IH. intros y Hy. apply H. now right.
Qed.

(** ** Grouping by the pair (group, week label) *)

Lemma pair_is_true (k : string * string) (r : Row) :
  pair_is k r = true <-> (Gruppe r, KW_STR r) = k.
Proof.
  unfold pair_is. rewrite andb_true_iff, !String.eqb_eq. destruct k as [a b]. simpl.
  split; [intros [-> ->]; reflexivity | intro E; injection E as -> ->; now split].
Qed.

(** The per-key sums of distinct keys add up to the sum over the rows
    that carry one of the keys. *)
Lemma partition_sum (K : list (string * string)) (l : list Row) :
  NoDup K ->
  qsum (map (fun k => nansum (map KM (filter (pair_is k) l))) K)
  == nansum (map KM (filter (fun r => existsb (fun k => pair_is k r) K) l)).
Proof.
  induction 1 as [|k K Hk Hnd IH]; simpl.
  - rewrite filter_none; [reflexivity | reflexivity].
  - rewrite IH. symmetry. apply nansum_filter_or.
    intros r _ H1 H2. apply pair_is_true in H1. apply existsb_exists in H2 as [k' [Hk' H2]].
    apply pair_is_true in H2. apply Hk. congruence.
Qed.

(** ** The running total per group *)

(** Each cumulative value is the starting total of its group plus the
    distances of the group's rows up to and including its own row. *)
Lemma groupby_cumsum_spec (l : list (string * string * Q)) :
  forall (acc : string -> Q) (pre post : list GroupWeek) (e : GroupWeek),
    groupby_cumsum acc l = pre ++ e :: post ->
    exists lpre lpost,
      l = lpre ++ (gw_Gruppe e, gw_KW_STR e, gw_KM e) :: lpost /\
      map (fun e => (gw_Gruppe e, gw_KW_STR e, gw_KM e)) pre = lpre /\
      map (fun e => (gw_Gruppe e, gw_KW_STR e, gw_KM e)) post = lpost /\
      gw_Kumulierte_KM e
      == acc (gw_Gruppe e)
         + qsum (map km_of (filter (fun t => String.eqb (group_of t) (gw_Gruppe e)) lpre))
         + gw_KM e.
Proof.
  induction l as [|[[g w] km] l IH]; intros acc pre post e H; simpl in H.
  - destruct pre; discriminate H.
  - destruct pre as [|e0 pre]; simpl in H; injection H as He H.
    + exists [], l. subst e. simpl. repeat split.
      * now rewrite <- H, groupby_cumsum_keys.
      * ring.
    + destruct (IH _ _ _ _ H) as [lpre [lpost [E [E1 [E2 Hc]]]]].
      exists ((g, w, km) :: lpre), lpost. subst e0. simpl. repeat split.
      * now rewrite E.
      * now rewrite E1.
      * exact E2.
      * rewrite Hc. unfold group_of at 2. simpl.
        rewrite (String.eqb_sym g (gw_Gruppe e)).
        destruct (String.eqb_spec (gw_Gruppe e) g) as [Eg|Ng]; simpl.
        -- rewrite Eg. change (km_of (g, w, km)) with km. ring.
        -- reflexivity.
Qed.

(** ** Positions in the canonical week order *)

Lemma index_firstn (x : string) (l : list string) (n : nat) :
  In x l -> (Py.index x l <= n)%nat -> In x (firstn (S n) l).
Proof.
  revert n. induction l as [|y l IH]; intros n H Hn; [destruct H|].
  simpl in Hn. destruct (String.eqb_spec x y) as [->|N].
  - now left.
  - destruct H as [E|H]; [now elim N|]. destruct n as [|n]; [lia|].
    right. apply IH; [exact H | lia].
Qed.

Lemma firstn_index (x : string) (l : list string) (n : nat) :
  In x (firstn (S n) l) -> (Py.index x l <= n)%nat.
Proof.
  revert n. induction l as [|y l IH]; intros n H; [destruct H|].
  simpl. destruct (String.eqb_spec x y) as [->|N]; [lia|].
  destruct H as [E|H]; [now elim N|]. destruct n as [|n]; [destruct H|].
  apply IH in H. lia.
Qed.

Lemma index_inj (x y : string) (l : list string) :
  In x l -> Py.index x l = Py.index y l -> x = y.
Proof.
  induction l as [|z l IH]; intros H E; [destruct H|].
  simpl in E. destruct (String.eqb_spec x z) as [->|N], (String.eqb_spec y z) as [->|N'];
    try reflexivity; try discriminate.
  destruct H as [H|H]; [now elim N|]. apply IH; [exact H | now injection E].
Qed.

Lemma firstn_NoDup (A : Type) (n : nat) (l : list A) : NoDup l -> NoDup (firstn n l).
Proof.
  revert n. induction l as [|x l IH]; intros n H; destruct n; simpl; try constructor.
  - inversion H as [|? ? Hx Hl]; subst. intro Hin. apply Hx.
    rewrite <- (firstn_skipn n l). apply in_or_app. now left.
  - apply IH. now inversion H.
Qed.

Lemma CHALLENGE_KWS_STR_NoDup : NoDup CHALLENGE_KWS_STR.
Proof.
  apply (NoDup_count_occ' string_dec). intros x Hx.
  repeat (destruct Hx as [<-|Hx]; [reflexivity|]). destruct Hx.
Qed.

Lemma weeks_upto_In (k w : string) :
  In w (weeks_upto k) <-> In w CHALLENGE_KWS_STR /\ (week_pos w <= week_pos k)%nat.
Proof.
  unfold weeks_upto, week_pos. split.
  - intro H. split; [|now apply firstn_index].
    rewrite <- (firstn_skipn (S (Py.index k CHALLENGE_KWS_STR)) CHALLENGE_KWS_STR).
    apply in_or_app. now left.
  - intros [H1 H2]. now apply index_firstn.
Qed.

(** ** The sorted keys of the group-week table *)

Lemma key_leb_total (a b : string * string) : key_leb a b = true \/ key_leb b a = true.
Proof.
  unfold key_leb. rewrite (String.eqb_sym (fst b) (fst a)).
  destruct (String.eqb (fst a) (fst b)).
  - rewrite !Nat.leb_le. lia.
  - apply String.leb_total.
Qed.

Lemma key_leb_trans (a b c : string * string) :
  key_leb a b = true -> key_leb b c = true -> key_leb a c = true.
Proof.
  unfold key_leb.
  destruct (String.eqb_spec (fst a) (fst b)) as [E1|N1].
  - rewrite E1. destruct (String.eqb (fst b) (fst c)); rewrite ?Nat.leb_le; intros H1 H2;
      [lia | exact H2].
  - destruct (String.eqb_spec (fst b) (fst c)) as [E2|N2].
    + rewrite <- E2. rewrite (proj2 (String.eqb_neq _ _) N1). intros H1 _. exact H1.
    + intros H1 H2. destruct (String.eqb_spec (fst a) (fst c)) as [E3|N3].
      * exfalso. rewrite <- E3 in H2. apply N1. now apply String.leb_antisym.
      * eapply string_leb_trans; eassumption.
Qed.

Lemma group_week_sums_keys (l : list Row) :
  group_week_sums l
  = map (fun k => (fst k, snd k, nansum (map KM (filter (pair_is k) l)))) (observed_keys l).
Proof. reflexivity. Qed.

Lemma observed_keys_In (l : list Row) (k : string * string) :
  In k (observed_keys l) <-> exists r, In r l /\ (Gruppe r, KW_STR r) = k.
Proof.
  unfold observed_keys. rewrite sort_In, unique2_In, in_map_iff.
  split; intros [r [H1 H2]]; exists r; tauto.
Qed.

Lemma observed_keys_NoDup (l : list Row) : NoDup (observed_keys l).
Proof. apply sort_NoDup, unique2_NoDup. Qed.

Lemma observed_keys_sorted (l : list Row) : StronglySorted key_le (observed_keys l).
Proof. apply sort_sorted; [apply key_leb_total | apply key_leb_trans]. Qed.

Lemma StronglySorted_split (A : Type) (R : A -> A -> Prop) (l1 l2 : list A) (x : A) :
  StronglySorted R (l1 ++ x :: l2) ->
  (forall a, In a l1 -> R a x) /\ (forall b, In b l2 -> R x b) /\
  (forall a b, In a l1 -> In b l2 -> R a b).
Proof.
  induction l1 as [|y l1 IH]; simpl; intro H.
  - apply StronglySorted_inv in H as [_ H]. rewrite Forall_forall in H.
    split; [intros a []|]. split; [exact H | intros a b []].
  - apply StronglySorted_inv in H as [H Hy]. rewrite Forall_forall in Hy.
    destruct (IH H) as [H1 [H2 H3]]. split; [|split].
    + intros a [<-|Ha]; [apply Hy, in_or_app; right; now left | now apply H1].
    + exact H2.
    + intros a b [<-|Ha] Hb; [apply Hy, in_or_app; right; now right | now apply H3].
Qed.

(** Same group: the key order is the canonical week order. *)
Lemma key_le_same_group (g w1 w2 : string) :
  key_le (g, w1) (g, w2) <-> (week_pos w1 <= week_pos w2)%nat.
Proof.
  unfold key_le, key_leb, week_pos. simpl. rewrite String.eqb_refl. apply Nat.leb_le.
Qed.

(** ** The cumulative values in closed form *)

(** A row of [group_weekly] sits where its key sits among the sorted
    keys; its distance is the sum filed under the key and its cumulative
    value adds the sums of the earlier keys of the same group. *)
Lemma group_weekly_split (df : DataFrame) (pre post : list GroupWeek) (e : GroupWeek) :
  has_Gruppe df = true ->
  group_weekly_of df = pre ++ e :: post ->
  observed_keys (df_filtered_kws df) = map gw_key pre ++ gw_key e :: map gw_key post /\
  gw_KM e = key_km df (gw_key e) /\
  gw_Kumulierte_KM e
  == qsum (map (key_km df)
               (filter (fun k => String.eqb (fst k) (gw_Gruppe e)) (map gw_key pre)))
     + key_km df (gw_key e).
Proof.
  intros HG H. unfold group_weekly_of in H. rewrite HG in H.
  destruct (groupby_cumsum_spec _ _ _ _ _ H) as [lpre [lpost [E [E1 [E2 Hc]]]]].
  rewrite group_week_sums_keys in E.
  apply map_eq_app in E as [kpre [krest [Ek [Epre Erest]]]].
  apply map_eq_cons in Erest as [k [kpost [-> [Et Epost]]]].
  injection Et as Eg Ew Ekm.
  assert (Hk : k = gw_key e) by (destruct k; simpl in *; unfold gw_key; congruence).
  subst k.
  assert (Hmap : forall (l : list GroupWeek) (ks : list (string * string)),
             map (fun k => (fst k, snd k, nansum (map KM (filter (pair_is k) (df_filtered_kws df))))) ks
             = map (fun e => (gw_Gruppe e, gw_KW_STR e, gw_KM e)) l ->
             ks = map gw_key l).
  { induction l as [|x l IH]; intros [|k ks] Hm; try discriminate; [reflexivity|].
    simpl in Hm. injection Hm as A1 A2 _ Hm. simpl. f_equal; [|now apply IH].
    destruct k; unfold gw_key; simpl in *; congruence. }
  assert (Hpre : kpre = map gw_key pre) by (apply Hmap; congruence).
  assert (Hpost : kpost = map gw_key post) by (apply Hmap; congruence).
  split; [congruence|]. split; [now symmetry|].
  rewrite Hc, <- Epre, <- Hpre, <- Ekm.
  assert (Hs : forall ks,
             qsum (map km_of
                       (filter (fun t => String.eqb (group_of t) (gw_Gruppe e))
                               (map (fun k => (fst k, snd k,
                                               nansum (map KM (filter (pair_is k) (df_filtered_kws df)))))
                                    ks)))
             = qsum (map (key_km df) (filter (fun k => String.eqb (fst k) (gw_Gruppe e)) ks))).
  { induction ks as [|k ks IH]; simpl; [reflexivity|].
    unfold group_of at 1. simpl. destruct (String.eqb (fst k) (gw_Gruppe e)); simpl; now rewrite IH. }
  rewrite Hs. unfold key_km at 3. ring.
Qed.

Lemma filter_filter_absorb (A : Type) (p q : A -> bool) (l : list A) :
  (forall x, p x = true -> q x = true) -> filter p (filter q l) = filter p l.
Proof.
  intro H. induction l as [|x l IH]; simpl; [reflexivity|].
  destruct (q x) eqn:Eq; simpl.
  - now rewrite IH.
  - destruct (p x) eqn:Ep; [|exact IH]. apply H in Ep. congruence.
Qed.

Lemma week_km_filtered (df : DataFrame) (g w : string) :
  In w CHALLENGE_KWS_STR ->
  key_km df (g, w) = week_km (rows df) g w.
Proof.
  intro Hw. unfold key_km, week_km, df_filtered_kws.
  rewrite filter_filter_absorb; [reflexivity|].
  intros r Hr. apply pair_is_true in Hr. injection Hr as _ Hr.
  apply isin_In. now rewrite Hr.
Qed.

Lemma existsb_pair_is (K : list (string * string)) (r : Row) :
  existsb (fun k => pair_is k r) K = true <-> In (Gruppe r, KW_STR r) K.
Proof.
  rewrite existsb_exists. split.
  - intros [k [Hk H]]. apply pair_is_true in H. now rewrite H.
  - intro H. exists (Gruppe r, KW_STR r). split; [exact H | now apply pair_is_true].
Qed.

Lemma NoDup_map_pair (g : string) (l : list string) : NoDup l -> NoDup (map (pair g) l).
Proof.
  induction 1 as [|x l Hx _ IH]; simpl; constructor; [|exact IH].
  rewrite in_map_iff. intros [y [E Hy]]. injection E as ->. now apply Hx.
Qed.

Lemma bool_ext (a b : bool) : (a = true <-> b = true) -> a = b.
Proof. destruct a, b; intros [H1 H2]; try reflexivity; [symmetry; now apply H1 | now apply H2]. Qed.

(** The cumulative value of a row is the sum of the group's weekly
    distances over the challenge weeks up to and including the row's
    week, in canonical order. *)
Lemma cumulative_closed_form (df : DataFrame) (pre post : list GroupWeek) (e : GroupWeek) :
  has_Gruppe df = true ->
  group_weekly_of df = pre ++ e :: post ->
  gw_Kumulierte_KM e
  == qsum (map (week_km (rows df) (gw_Gruppe e)) (weeks_upto (gw_KW_STR e))).
Proof.
  intros HG H.
  destruct (group_weekly_split df pre post e HG H) as [Hkeys [_ Hc]].
  set (g := gw_Gruppe e) in *. set (w := gw_KW_STR e) in *.
  assert (Hw : In w CHALLENGE_KWS_STR).
  { apply (group_weekly_week_In df e). rewrite H. apply in_or_app. right. now left. }
  assert (Hnd := observed_keys_NoDup (df_filtered_kws df)).
  assert (Hso := observed_keys_sorted (df_filtered_kws df)).
  rewrite Hkeys in Hnd, Hso.
  apply StronglySorted_split in Hso as [Hbefore [Hafter _]].
  set (K1 := filter (fun k => String.eqb (fst k) g) (map gw_key pre) ++ [(g, w)]).
  set (K2 := map (pair g) (weeks_upto w)).
  transitivity (qsum (map (key_km df) K1)).
  { rewrite Hc. unfold K1. rewrite map_app, qsum_app. simpl. unfold gw_key. fold g w. ring. }
  transitivity (qsum (map (key_km df) K2)).
  2:{ unfold K2. rewrite map_map. apply qsum_map_ext. intros w' Hw'.
      rewrite week_km_filtered; [reflexivity|]. now apply weeks_upto_In in Hw'. }
  assert (Hnd1 : NoDup K1).
  { unfold K1. apply NoDup_remove_1 in Hnd as Hnd'. apply NoDup_remove_2 in Hnd.
    apply NoDup_app_remove_r in Hnd'.
    assert (Hf := NoDup_filter (fun k => String.eqb (fst k) g) Hnd').
    apply (Permutation_NoDup (l := (g, w) :: filter (fun k => String.eqb (fst k) g) (map gw_key pre))).
    - apply Permutation_cons_append.
    - constructor; [|exact Hf]. rewrite filter_In. intros [Hin _]. apply Hnd.
      apply in_or_app. now left. }
  assert (Hnd2 : NoDup K2).
  { unfold K2. apply NoDup_map_pair, firstn_NoDup, CHALLENGE_KWS_STR_NoDup. }
  unfold key_km.
  rewrite (partition_sum (df_filtered_kws df) Hnd1), (partition_sum (df_filtered_kws df) Hnd2).
  rewrite (filter_ext_in (fun r => existsb (fun k => pair_is k r) K1)
                         (fun r => existsb (fun k => pair_is k r) K2)); [reflexivity|].
  intros r Hr. apply bool_ext. rewrite !existsb_pair_is.
  assert (HrW : In (KW_STR r) CHALLENGE_KWS_STR).
  { unfold df_filtered_kws in Hr. apply filter_In in Hr as [_ Hr]. now apply isin_In. }
  unfold K1, K2. rewrite in_app_iff, filter_In. split.
  - intro H1. apply in_map_iff. exists (KW_STR r). destruct H1 as [[Hin Eg]|[Ek|[]]].
    + apply String.eqb_eq in Eg. simpl in Eg. split; [now rewrite Eg|].
      apply weeks_upto_In. split; [exact HrW|].
      apply Hbefore in Hin. unfold gw_key in Hin. fold g w in Hin. rewrite Eg in Hin.
      now apply key_le_same_group in Hin.
    + injection Ek as Eg Ew. split; [now rewrite Eg|].
      apply weeks_upto_In. split; [exact HrW | rewrite Ew; lia].
  - intro H2. apply in_map_iff in H2 as [w' [E Hw']]. injection E as Eg Ew. subst w'.
    apply weeks_upto_In in Hw' as [_ Hpos].
    assert (Hobs : In (Gruppe r, KW_STR r) (observed_keys (df_filtered_kws df))).
    { apply observed_keys_In. now exists r. }
    rewrite Hkeys in Hobs. apply in_app_or in Hobs as [Hin|[Ek|Hin]].
    + left. split; [exact Hin | simpl; rewrite <- Eg; apply String.eqb_refl].
    + right. left. unfold gw_key in Ek. fold g w in Ek. exact Ek.
    + exfalso. apply Hafter in Hin as Hle. unfold gw_key in Hle.
      fold g w in Hle. rewrite <- Eg in Hle. apply key_le_same_group in Hle.
      assert (Ew : KW_STR r = w).
      { apply (index_inj (KW_STR r) w CHALLENGE_KWS_STR HrW). unfold week_pos in *. lia. }
      apply NoDup_remove_2 in Hnd. apply Hnd. apply in_or_app. right.
      unfold gw_key. fold g w. rewrite Eg, <- Ew. exact Hin.
Qed.

Lemma group_weekly_keys (df : DataFrame) :
  has_Gruppe df = true ->
  map gw_key (group_weekly_of df) = observed_keys (df_filtered_kws df).
Proof.
  intro HG. unfold group_weekly_of. rewrite HG.
  transitivity (map (fun t : string * string * Q => (fst (fst t), snd (fst t)))
                    (map (fun e => (gw_Gruppe e, gw_KW_STR e, gw_KM e))
                         (groupby_cumsum (fun _ => 0) (group_week_sums (df_filtered_kws df))))).
  - rewrite map_map. reflexivity.
  - rewrite groupby_cumsum_keys, group_week_sums_keys, map_map. simpl.
    rewrite <- (map_id (observed_keys (df_filtered_kws df))) at 2.
    apply map_ext. now intros [a b].
Qed.

Lemma StronglySorted_map (A B : Type) (R : B -> B -> Prop) (f : A -> B) (l : list A) :
  StronglySorted R (map f l) -> StronglySorted (fun a b => R (f a) (f b)) l.
Proof.
  induction l as [|x l IH]; simpl; intro H; constructor.
  - apply IH. now inversion H.
  - apply StronglySorted_inv in H as [_ H]. rewrite Forall_forall in *.
    intros y Hy. apply H. now apply in_map.
Qed.

Lemma StronglySorted_weaken (A : Type) (R R' : A -> A -> Prop) (l : list A) :
  (forall a b, In a l -> In b l -> R a b -> R' a b) ->
  StronglySorted R l -> StronglySorted R' l.
Proof.
  intros H Hs. induction Hs as [|x l Hs IH Hall]; constructor.
  - apply IH. intros a b Ha Hb. apply H; now right.
  - rewrite Forall_forall in *. intros y Hy. apply H; [now left | now right | now apply Hall].
Qed.

Lemma group_weekly_sorted (df : DataFrame) : StronglySorted gw_before (group_weekly_of df).
Proof.
  destruct (has_Gruppe df) eqn:HG; [|unfold group_weekly_of; rewrite HG; constructor].
  assert (Hs := observed_keys_sorted (df_filtered_kws df)).
  assert (Hnd := observed_keys_NoDup (df_filtered_kws df)).
  rewrite <- (group_weekly_keys df HG) in Hs, Hnd.
  apply StronglySorted_strict in Hs; [|exact Hnd].
  apply StronglySorted_map in Hs.
  eapply StronglySorted_weaken; [|exact Hs].
  intros a b Ha _ [Hle Hne]. simpl in Hle, Hne. unfold gw_before.
  unfold key_le, key_leb, gw_key in Hle. cbn [fst snd] in Hle.
  destruct (String.eqb_spec (gw_Gruppe a) (gw_Gruppe b)) as [E|N].
  - right. split; [exact E|]. apply Nat.leb_le in Hle. unfold week_pos.
    destruct (Nat.eq_dec (Py.index (gw_KW_STR a) CHALLENGE_KWS_STR)
                         (Py.index (gw_KW_STR b) CHALLENGE_KWS_STR)) as [Ei|Ni]; [|lia].
    exfalso. apply Hne. unfold gw_key. f_equal; [exact E|].
    apply (index_inj _ _ CHALLENGE_KWS_STR); [now apply (group_weekly_week_In df) | exact Ei].
  - left. now split.
Qed.

(** ** C1 *)

(** C1.  Every row of the cumulative group table lies in a challenge
    week, holds the group's summed distance of that week, and its
    cumulative value is the sum of the group's weekly sums over the
    challenge weeks up to and including its own week in the canonical
    order 45..52, 1..10; every group and challenge week with data has a
    row; the rows of a group follow the canonical order.  A group with
    data only in weeks 46 and 1 gets its week-1 row after its week-46
    row. *)
Theorem cumulative_in_canonical_order :
  (forall df e, In e (group_weekly_of df) ->
     In (gw_KW_STR e) CHALLENGE_KWS_STR /\
     gw_KM e = week_km (rows df) (gw_Gruppe e) (gw_KW_STR e) /\
     gw_Kumulierte_KM e
     == qsum (map (week_km (rows df) (gw_Gruppe e)) (weeks_upto (gw_KW_STR e)))) /\
  (forall df r, has_Gruppe df = true -> In r (rows df) -> In (KW_STR r) CHALLENGE_KWS_STR ->
     exists e, In e (group_weekly_of df) /\ gw_Gruppe e = Gruppe r /\ gw_KW_STR e = KW_STR r) /\
  (forall df, StronglySorted gw_before (group_weekly_of df)) /\
  weeks_upto "1" = [ "45"; "46"; "47"; "48"; "49"; "50"; "51"; "52"; "1" ]%string /\
  map (fun e => (gw_Gruppe e, gw_KW_STR e)) (group_weekly sheet_wrap)
    = [ ("X", "46"); ("X", "1") ]%string /\
  Forall2 (fun e c => gw_Kumulierte_KM e == c) (group_weekly sheet_wrap) [ 3; 8 ].
Proof.
  split; [|split; [|split; [exact group_weekly_sorted|]]].
  - intros df e He.
    assert (HG : has_Gruppe df = true).
    { destruct (has_Gruppe df) eqn:HG; [reflexivity|].
      unfold group_weekly_of in He. rewrite HG in He. destruct He. }
    assert (Hw := group_weekly_week_In df e He).
    destruct (in_split _ _ He) as [pre [post Hsplit]].
    split; [exact Hw|]. split.
    + destruct (group_weekly_split df pre post e HG Hsplit) as [_ [Hkm _]].
      rewrite Hkm. now apply week_km_filtered.
    + now apply (cumulative_closed_form df pre post e HG).
  - intros df r HG Hr Hw.
    assert (Hk : In (Gruppe r, KW_STR r) (map gw_key (group_weekly_of df))).
    { rewrite (group_weekly_keys df HG). apply observed_keys_In. exists r. split; [|reflexivity].
      unfold df_filtered_kws. apply filter_In. split; [exact Hr | now apply isin_In]. }
    apply in_map_iff in Hk as [e [Ek He]]. exists e. injection Ek as E1 E2. now repeat split.
  - split; [reflexivity|]. split; [reflexivity|].
    repeat constructor.
Qed.

(** ** Looking up a grouped sum *)

Lemma lookup_map (F : string -> Q) (ks : list string) (k : string) :
  lookup k (map (fun k => (k, F k)) ks) = if Py.isin k ks then Some (F k) else None.
Proof.
  induction ks as [|x ks IH]; simpl; [reflexivity|].
  destruct (String.eqb_spec k x) as [->|N]; simpl; [reflexivity | exact IH].
Qed.

Lemma lookup_groupby_sum (key : Row -> string) (l : list Row) (k : string) :
  lookup k (groupby_sum key l)
  = if Py.isin k (map key l)
    then Some (nansum (map KM (filter (fun r => String.eqb (key r) k) l)))
    else None.
Proof.
  unfold groupby_sum. rewrite lookup_map.
  replace (Py.isin k (Py.sorted (unique (map key l)))) with (Py.isin k (map key l));
    [reflexivity|].
  apply bool_ext. rewrite !isin_In. symmetry. apply sorted_unique_In.
Qed.

Lemma groupby_sum_In_iff (key : Row -> string) (l : list Row) (k : string) (t : Q) :
  In (k, t) (groupby_sum key l) <->
  In k (map key l) /\ t = nansum (map KM (filter (fun r => String.eqb (key r) k) l)).
Proof.
  unfold groupby_sum. rewrite in_map_iff. split.
  - intros [x [E H]]. injection E as -> ->. split; [now apply sorted_unique_In | reflexivity].
  - intros [H ->]. exists k. split; [reflexivity | now apply sorted_unique_In].
Qed.

(** The distances of the rows of [group_weekly] that satisfy a condition
    on the key add up to the distance of the challenge-week rows that
    satisfy it. *)
Lemma group_weekly_partial_sum (df : DataFrame) (p : string * string -> bool) :
  has_Gruppe df = true ->
  qsum (map gw_KM (filter (fun e => p (gw_key e)) (group_weekly_of df)))
  == nansum (map KM (filter (fun r => p (Gruppe r, KW_STR r)) (df_filtered_kws df))).
Proof.
  intro HG.
  assert (E : map gw_KM (filter (fun e => p (gw_key e)) (group_weekly_of df))
              = map (key_km df) (filter p (observed_keys (df_filtered_kws df)))).
  { rewrite <- (group_weekly_keys df HG), filter_map_swap, map_map.
    apply map_ext_in. intros e He. apply filter_In in He as [He _].
    destruct (in_split _ _ He) as [pre [post Hs]].
    now destruct (group_weekly_split df pre post e HG Hs) as [_ [Hkm _]]. }
  rewrite E. unfold key_km.
  rewrite partition_sum; [|apply NoDup_filter, observed_keys_NoDup].
  rewrite (filter_ext_in
             (fun r => existsb (fun k => pair_is k r) (filter p (observed_keys (df_filtered_kws df))))
             (fun r => p (Gruppe r, KW_STR r))); [reflexivity|].
  intros r Hr. apply bool_ext. rewrite existsb_pair_is, filter_In, observed_keys_In.
  split; [tauto|]. intro H. split; [now exists r | exact H].
Qed.

(** ** C2 *)

(** C2 as stated fails: week 20 is outside the challenge, so the weekly
    totals of the whole table hold 3 km for it while the group table has
    no row for it and the groups' sums for that week add up to 0. *)
Lemma off_challenge_week_not_conserved :
  lookup "20" (weekly_summary sheet_off_week) = Some (3 + 0) /\
  filter (fun e => String.eqb (gw_KW_STR e) "20") (group_weekly sheet_off_week) = [] /\
  ~ (3 + 0 == qsum (map gw_KM (filter (fun e => String.eqb (gw_KW_STR e) "20")
                                      (group_weekly sheet_off_week)))).
Proof.
  split; [reflexivity|]. split; [reflexivity|]. vm_compute. discriminate.
Qed.

(** C2, amended.  For a table with a group column and a week label of
    the Challenge Week Set, the weekly total of the whole table (0 when
    the week has no bucket) equals the sum over the rows of the group
    table for that week, that is the sum over all groups of their summed
    distance in that week. *)
Theorem weekly_total_is_sum_over_groups (df : DataFrame) (w : string) :
  has_Gruppe df = true ->
  In w CHALLENGE_KWS_STR ->
  match lookup w (weekly_summary_of df) with Some t => t | None => 0 end
  == week_total (rows df) w /\
  week_total (rows df) w
  == qsum (map gw_KM (filter (fun e => String.eqb (gw_KW_STR e) w) (group_weekly_of df))).
Proof.
  intros HG Hw. split.
  - unfold weekly_summary_of. rewrite lookup_groupby_sum.
    destruct (Py.isin w (map KW_STR (rows df))) eqn:E; [reflexivity|].
    unfold week_total. rewrite filter_none; [reflexivity|].
    intros r Hr. apply String.eqb_neq. intro Er.
    assert (In w (map KW_STR (rows df))) as Hin by (rewrite <- Er; now apply in_map).
    apply isin_In in Hin. congruence.
  - rewrite (group_weekly_partial_sum df (fun k => String.eqb (snd k) w) HG). simpl.
    unfold week_total, df_filtered_kws.
    rewrite filter_filter_absorb; [reflexivity|].
    intros r Hr. apply String.eqb_eq in Hr. apply isin_In. now rewrite Hr.
Qed.

(** Week 45 of the sheet with runs in weeks 45 and 20. *)
Lemma weekly_total_is_sum_over_groups_witness :
  has_Gruppe (df_of sheet_off_week) = true /\
  In "45"%string CHALLENGE_KWS_STR /\
  week_total (rows (df_of sheet_off_week)) "45"%string
  == qsum (map gw_KM (filter (fun e => String.eqb (gw_KW_STR e) "45")
                             (group_weekly_of (df_of sheet_off_week)))).
Proof.
  split; [reflexivity|]. split; [now left|].
  exact (proj2 (@weekly_total_is_sum_over_groups (df_of sheet_off_week) "45"%string
                  eq_refl (or_introl eq_refl))).
Defined.

(** ** C4 *)

Lemma filter_filter_and (A : Type) (p q : A -> bool) (l : list A) :
  filter p (filter q l) = filter (fun x => p x && q x) l.
Proof.
  induction l as [|x l IH]; simpl; [reflexivity|].
  destruct (q x); simpl; [destruct (p x); simpl; now rewrite IH | now rewrite andb_false_r].
Qed.

Lemma key_km_nonneg (df : DataFrame) (k : string * string) :
  (forall r q, In r (rows df) -> KM r = Some q -> 0 <= q) -> 0 <= key_km df k.
Proof.
  intro H. unfold key_km. apply nansum_nonneg. intros q Hq.
  apply in_map_iff in Hq as [r [E Hr]]. apply filter_In in Hr as [Hr _].
  unfold df_filtered_kws in Hr. apply filter_In in Hr as [Hr _]. now apply (H r).
Qed.

(** C4 as stated fails in its second half: group X logs 5 km in week 45
    and 3 km in week 20; its last cumulative value is 5 while its entry
    in the group totals is 8. *)
Lemma final_cumulative_below_group_total :
  Forall2 (fun e c => gw_Gruppe e = "X"%string /\ gw_Kumulierte_KM e == c)
          (group_weekly sheet_off_week) [ 5 ] /\
  Forall2 (fun p c => fst p = "X"%string /\ snd p == c)
          (group_bar_data (df_of sheet_off_week) (inl "Gesamt"%string)) [ 8 ] /\
  ~ (5 == 8).
Proof.
  split; [|split].
  - repeat constructor.
  - repeat constructor.
  - intro H. vm_compute in H. discriminate H.
Qed.

(** C4, amended.  With distances that are not negative, the cumulative
    values of a group do not decrease along the rows of the group table,
    which follow the canonical week order.  The cumulative value in the
    last row of a group equals the distance the group logged in the
    challenge weeks; it equals the group's entry in the group totals when
    every row of the group lies in a challenge week. *)
Theorem cumulative_monotone_and_final (df : DataFrame) :
  (forall r q, In r (rows df) -> KM r = Some q -> 0 <= q) ->
  (forall pre e1 mid e2 post,
      group_weekly_of df = pre ++ e1 :: mid ++ e2 :: post ->
      gw_Gruppe e1 = gw_Gruppe e2 ->
      gw_before e1 e2 /\ gw_Kumulierte_KM e1 <= gw_Kumulierte_KM e2) /\
  (forall pre e post,
      group_weekly_of df = pre ++ e :: post ->
      (forall e', In e' post -> gw_Gruppe e' <> gw_Gruppe e) ->
      gw_Kumulierte_KM e == challenge_km (rows df) (gw_Gruppe e) /\
      ((forall r, In r (rows df) -> Gruppe r = gw_Gruppe e ->
                  In (KW_STR r) CHALLENGE_KWS_STR) ->
       (exists t, In (gw_Gruppe e, t) (group_bar_data df (inl "Gesamt"%string))) /\
       (forall t, In (gw_Gruppe e, t) (group_bar_data df (inl "Gesamt"%string)) ->
                  gw_Kumulierte_KM e == t))).
Proof.
  intro Hpos.
  assert (HGof : forall pre e post, group_weekly_of df = pre ++ e :: post -> has_Gruppe df = true).
  { intros pre e post H. destruct (has_Gruppe df) eqn:HG; [reflexivity|].
    unfold group_weekly_of in H. rewrite HG in H. destruct pre; discriminate H. }
  split.
  - intros pre e1 mid e2 post H Eg. split.
    + assert (Hs := group_weekly_sorted df). rewrite H in Hs.
      apply StronglySorted_split in Hs as [_ [Hs _]]. apply Hs, in_or_app. right. now left.
    + assert (HG := HGof _ _ _ H).
      destruct (group_weekly_split df pre (mid ++ e2 :: post) e1 HG H) as [_ [_ H1]].
      assert (H' : group_weekly_of df = (pre ++ e1 :: mid) ++ e2 :: post)
        by (rewrite H, <- app_assoc; reflexivity).
      destruct (group_weekly_split df (pre ++ e1 :: mid) post e2 HG H') as [_ [_ H2]].
      rewrite H1, H2, <- Eg.
      rewrite map_app, filter_app, map_app, qsum_app. simpl.
      unfold gw_key at 2. simpl. rewrite String.eqb_refl. simpl.
      assert (0 <= key_km df (gw_key e2)) by now apply key_km_nonneg.
      assert (0 <= qsum (map (key_km df)
                             (filter (fun k => String.eqb (fst k) (gw_Gruppe e1)) (map gw_key mid)))).
      { apply qsum_map_nonneg. intros k _. now apply key_km_nonneg. }
      unfold gw_key in *. lra.
  - intros pre e post H Hlast.
    assert (HG := HGof _ _ _ H).
    assert (Hcum : gw_Kumulierte_KM e == challenge_km (rows df) (gw_Gruppe e)).
    { destruct (group_weekly_split df pre post e HG H) as [_ [Hkm Hc]].
      rewrite Hc, <- Hkm.
      assert (Hall : qsum (map gw_KM (filter (fun x => String.eqb (fst (gw_key x)) (gw_Gruppe e))
                                             (group_weekly_of df)))
                     == qsum (map (key_km df)
                                  (filter (fun k => String.eqb (fst k) (gw_Gruppe e)) (map gw_key pre)))
                        + gw_KM e).
      { rewrite H, filter_app, map_app, qsum_app. simpl. rewrite String.eqb_refl. simpl.
        rewrite (filter_none _ post).
        - simpl. rewrite filter_map_swap, map_map.
          rewrite (map_ext_in gw_KM (fun x => key_km df (gw_key x)));
            [unfold gw_key; cbn [fst]; ring|].
          intros x Hx. apply filter_In in Hx as [Hx _].
          assert (Hin : In x (group_weekly_of df)) by (rewrite H; apply in_or_app; now left).
          destruct (in_split _ _ Hin) as [p1 [p2 Hs]].
          now destruct (group_weekly_split df p1 p2 x HG Hs) as [_ [Hk _]].
        - intros x Hx. apply String.eqb_neq. simpl. now apply Hlast. }
      rewrite <- Hall.
      rewrite (group_weekly_partial_sum df (fun k => String.eqb (fst k) (gw_Gruppe e)) HG).
      simpl. unfold challenge_km, df_filtered_kws. now rewrite filter_filter_and. }
    split; [exact Hcum|]. intro Hin.
    assert (Hne : empty (df_base df (inl "Gesamt"%string)) = false).
    { assert (He : In e (group_weekly_of df)) by (rewrite H; apply in_or_app; right; now left).
      apply group_weekly_In in He as [r [Hr _]]. unfold df_filtered_kws in Hr.
      apply filter_In in Hr as [Hr _]. unfold df_base, empty. simpl.
      destruct (rows df); [destruct Hr | reflexivity]. }
    assert (Hg : In (gw_Gruppe e) (map Gruppe (rows df))).
    { assert (He : In e (group_weekly_of df)) by (rewrite H; apply in_or_app; right; now left).
      apply group_weekly_In in He as [r [Hr [Er _]]]. unfold df_filtered_kws in Hr.
      apply filter_In in Hr as [Hr _]. rewrite <- Er. now apply in_map. }
    assert (Hentry : forall t, In (gw_Gruppe e, t) (group_bar_data df (inl "Gesamt"%string)) <->
                               t = group_km (rows df) (gw_Gruppe e)).
    { intro t. unfold group_bar_data. rewrite Hne. simpl. unfold sort_desc. rewrite sort_In.
      unfold reindex. rewrite in_map_iff. unfold df_base. simpl. split.
      - intros [k [E _]]. injection E as -> <-. rewrite lookup_groupby_sum.
        rewrite (proj2 (isin_In _ _) Hg). reflexivity.
      - intros ->. exists (gw_Gruppe e). split.
        + rewrite lookup_groupby_sum, (proj2 (isin_In _ _) Hg). reflexivity.
        + unfold all_groups, groups. now apply sorted_unique_In. }
    assert (Etot : group_km (rows df) (gw_Gruppe e) = challenge_km (rows df) (gw_Gruppe e)).
    { unfold group_km, challenge_km. f_equal. f_equal. apply filter_ext_in. intros r Hr.
      destruct (String.eqb_spec (Gruppe r) (gw_Gruppe e)) as [E|N]; [|reflexivity].
      rewrite (proj2 (isin_In _ _) (Hin r Hr E)). reflexivity. }
    split.
    + exists (group_km (rows df) (gw_Gruppe e)). now apply Hentry.
    + intros t Ht. apply Hentry in Ht. rewrite Ht, Etot. exact Hcum.
Qed.

(** The sheet with data in weeks 46 and 1: the week-1 row follows the
    week-46 row and its cumulative value is not smaller. *)
Lemma cumulative_monotone_and_final_witness :
  (forall r q, In r (rows (df_of sheet_wrap)) -> KM r = Some q -> 0 <= q) /\
  gw_before (mkGW "X" "46" 3 3) (mkGW "X" "1" 5 8) /\
  gw_Kumulierte_KM (mkGW "X" "46" 3 3) <= gw_Kumulierte_KM (mkGW "X" "1" 5 8).
Proof.
  assert (Hpos : forall r q, In r (rows (df_of sheet_wrap)) -> KM r = Some q -> 0 <= q).
  { intros r q [<-|[<-|[]]] E; injection E as <-; vm_compute; discriminate. }
  split; [exact Hpos|].
  exact (proj1 (cumulative_monotone_and_final (df_of sheet_wrap) Hpos)
               [] (mkGW "X" "46" 3 3) [] (mkGW "X" "1" 5 8) [] eq_refl eq_refl).
Defined.

(** ** C9 *)

Lemma sort_desc_sorted (l : list (string * Q)) : StronglySorted at_least (sort_desc l).
Proof.
  unfold sort_desc.
  eapply StronglySorted_weaken;
    [|apply (sort_sorted (fun a b : string * Q => Qle_bool (snd b) (snd a)))].
  - intros a b _ _ H. now apply Qle_bool_iff in H.
  - intros a b. rewrite !Qle_bool_iff. destruct (Qlt_le_dec (snd a) (snd b)) as [H|H].
    + right. now apply Qlt_le_weak.
    + now left.
  - intros a b c. rewrite !Qle_bool_iff. intros H1 H2. eapply Qle_trans; eassumption.
Qed.

Lemma StronglySorted_app (A : Type) (R : A -> A -> Prop) (l1 l2 : list A) :
  StronglySorted R (l1 ++ l2) ->
  StronglySorted R l1 /\ forall a b, In a l1 -> In b l2 -> R a b.
Proof.
  induction l1 as [|x l1 IH]; simpl; intro H.
  - split; [constructor | intros a b []].
  - apply StronglySorted_inv in H as [H Hx]. rewrite Forall_forall in Hx.
    destruct (IH H) as [H1 H2]. split.
    + constructor; [exact H1|]. rewrite Forall_forall. intros y Hy. apply Hx, in_or_app. now left.
    + intros a b [<-|Ha] Hb; [apply Hx, in_or_app; now right | now apply H2].
Qed.

Lemma qmax_spec (x : Q) (l : list Q) :
  In (qmax x l) (x :: l) /\ forall y, In y (x :: l) -> y <= qmax x l.
Proof.
  revert x. induction l as [|z l IH]; intro x; simpl.
  - split; [now left | intros y [<-|[]]; apply Qle_refl].
  - destruct (IH (if Qle_bool x z then z else x)) as [H1 H2]. split.
    + destruct (Qle_bool x z); simpl in H1; tauto.
    + assert (Hm := H2 _ (or_introl eq_refl)).
      intros y [Ey|[Ey|Hy]].
      * rewrite <- Ey. destruct (Qle_bool x z) eqn:E; [|exact Hm].
        apply Qle_bool_iff in E. eapply Qle_trans; eassumption.
      * rewrite <- Ey. destruct (Qle_bool x z) eqn:E; [exact Hm|].
        assert (z <= x).
        { destruct (Qlt_le_dec x z) as [Hlt|Hle]; [|exact Hle].
          apply Qlt_le_weak, Qle_bool_iff in Hlt. congruence. }
        eapply Qle_trans; eassumption.
      * apply H2. now right.
Qed.

Lemma max_or_100_scaled (ranking : list (string * Q)) : scaled_to ranking (max_or_100 ranking).
Proof.
  destruct ranking as [|[k x] l]; [reflexivity|].
  unfold scaled_to, max_or_100. destruct (qmax_spec x (map snd l)) as [H1 H2]. split.
  - destruct H1 as [H1|H1].
    + exists (k, x). split; [now left | exact H1].
    + apply in_map_iff in H1 as [p [E Hp]]. exists p. split; [now right | exact E].
  - intros p [<-|Hp]; apply H2; [now left | right; now apply in_map].
Qed.

Lemma groupby_sum_keys_NoDup (key : Row -> string) (l : list Row) :
  NoDup (map fst (groupby_sum key l)).
Proof.
  unfold groupby_sum, Py.sorted. rewrite map_map. simpl. rewrite map_id.
  apply sort_NoDup, unique_NoDup.
Qed.

Lemma sort_desc_keys_NoDup (key : Row -> string) (l : list Row) :
  NoDup (map fst (sort_desc (groupby_sum key l))).
Proof.
  eapply Permutation_NoDup; [|apply (groupby_sum_keys_NoDup key l)].
  apply Permutation_map, Permutation_sym. unfold sort_desc. apply sort_perm.
Qed.

(** C9.  The runner leaderboard shows the first ten rows of the runners'
    totals sorted by descending distance: at most ten rows, each a
    different runner with the summed distance of the filtered table;
    together with the runners left out they are all the runners'
    totals, and no runner left out has a larger total than a runner
    shown; with at most ten runners every runner is shown.  The team
    leaderboard is the sorted list of all group totals, each group once.
    Each board's progress bars are scaled to the largest total it shows,
    or to 100 when it shows nothing.  With twelve runners with the
    totals 1 to 12 in one group the runner board shows the runners with
    12 down to 3, scaled to 12, and the team board one row. *)
Theorem leaderboards_top10_and_scale (dff : DataFrame) :
  List.length (runner_ranking dff)
    = Nat.min 10 (List.length (groupby_sum Name (rows dff))) /\
  StronglySorted at_least (runner_ranking dff) /\
  (forall n t, In (n, t) (runner_ranking dff) ->
     In n (map Name (rows dff)) /\
     t = nansum (map KM (filter (fun r => String.eqb (Name r) n) (rows dff)))) /\
  (forall p q, In p (runner_ranking dff) -> In q (groupby_sum Name (rows dff)) ->
     ~ In q (runner_ranking dff) -> snd q <= snd p) /\
  Permutation (group_ranking dff) (groupby_sum Gruppe (rows dff)) /\
  StronglySorted at_least (group_ranking dff) /\
  scaled_to (runner_ranking dff) (max_runner_km dff) /\
  scaled_to (group_ranking dff) (max_group_km dff) /\
  max_or_100 [] = 100 /\
  List.length (runner_ranking (df_of sheet_twelve)) = 10%nat /\
  max_runner_km (df_of sheet_twelve) == 12 /\
  List.length (group_ranking (df_of sheet_twelve)) = 1%nat /\
  (exists rest,
      Permutation (runner_ranking dff ++ rest) (groupby_sum Name (rows dff)) /\
      forall p q, In p (runner_ranking dff) -> In q rest -> snd q <= snd p) /\
  NoDup (map fst (runner_ranking dff)) /\
  NoDup (map fst (group_ranking dff)) /\
  ((List.length (groupby_sum Name (rows dff)) <= 10)%nat ->
   Permutation (runner_ranking dff) (groupby_sum Name (rows dff))) /\
  map fst (runner_ranking (df_of sheet_twelve))
    = [ "l"; "k"; "j"; "i"; "h"; "g"; "f"; "e"; "d"; "c" ]%string /\
  Forall2 (fun p c => snd p == c) (runner_ranking (df_of sheet_twelve))
          [ 12; 11; 10; 9; 8; 7; 6; 5; 4; 3 ].
Proof.
  assert (Hs := sort_desc_sorted (groupby_sum Name (rows dff))).
  rewrite <- (firstn_skipn 10 (sort_desc (groupby_sum Name (rows dff)))) in Hs.
  apply StronglySorted_app in Hs as [Hs1 Hs2].
  assert (Hin : forall p, In p (runner_ranking dff) -> In p (groupby_sum Name (rows dff))).
  { intros p Hp. apply (sort_In (fun a b : string * Q => Qle_bool (snd b) (snd a))).
    fold (sort_desc (groupby_sum Name (rows dff))).
    rewrite <- (firstn_skipn 10 (sort_desc (groupby_sum Name (rows dff)))).
    apply in_or_app. now left. }
  split; [unfold runner_ranking, sort_desc; now rewrite length_firstn, sort_length|].
  split; [exact Hs1|].
  split; [intros n t H; apply Hin, groupby_sum_In_iff in H; exact H|].
  split.
  { intros p q Hp Hq Hnot. apply Hs2; [exact Hp|].
    apply (sort_In (fun a b : string * Q => Qle_bool (snd b) (snd a))) in Hq.
    fold (sort_desc (groupby_sum Name (rows dff))) in Hq.
    rewrite <- (firstn_skipn 10 (sort_desc (groupby_sum Name (rows dff)))) in Hq.
    apply in_app_or in Hq as [Hq|Hq]; [now elim Hnot | exact Hq]. }
  split; [apply sort_perm|].
  split; [apply sort_desc_sorted|].
  split; [apply max_or_100_scaled|].
  split; [apply max_or_100_scaled|].
  split; [reflexivity|].
  split; [reflexivity|].
  split; [reflexivity|].
  split; [reflexivity|].
  split.
  { exists (skipn 10 (sort_desc (groupby_sum Name (rows dff)))). split; [|exact Hs2].
    unfold runner_ranking. rewrite firstn_skipn. unfold sort_desc. apply sort_perm. }
  split.
  { unfold runner_ranking. rewrite <- firstn_map. apply firstn_NoDup, sort_desc_keys_NoDup. }
  split; [apply sort_desc_keys_NoDup|].
  split.
  { intro Hlen. unfold runner_ranking. rewrite firstn_all2.
    - unfold sort_desc. apply sort_perm.
    - unfold sort_desc. now rewrite sort_length. }
  split; [reflexivity|].
  repeat constructor.
Qed.

(** * Further properties of the script *)

(** ** Grouped sums keep the total *)

Lemma filter_all (A : Type) (p : A -> bool) (l : list A) :
  (forall x, In x l -> p x = true) -> filter p l = l.
Proof.
  induction l as [|x l IH]; intro H; simpl; [reflexivity|].
  rewrite (H x (or_introl eq_refl)). f_equal. apply IH. intros y Hy. apply H. now right.
Qed.

(** The sums filed under distinct keys add up to the sum over the rows
    whose key is among them. *)
Lemma partition_sum_by (key : Row -> string) (K : list string) (l : list Row) :
  NoDup K ->
  qsum (map (fun k => nansum (map KM (filter (fun r => String.eqb (key r) k) l))) K)
  == nansum (map KM (filter (fun r => Py.isin (key r) K) l)).
Proof.
  induction 1 as [|k K Hk Hnd IH]; simpl.
  - rewrite filter_none; [reflexivity | reflexivity].
  - rewrite IH. symmetry. unfold Py.isin. simpl.
    apply (nansum_filter_or (fun r => String.eqb (key r) k)
                            (fun r => existsb (String.eqb (key r)) K)).
    intros r _ H1 H2. apply String.eqb_eq in H1. apply Hk. rewrite <- H1.
    now apply isin_In.
Qed.

Lemma groupby_sum_total (key : Row -> string) (l : list Row) :
  qsum (map snd (groupby_sum key l)) == nansum (map KM l).
Proof.
  unfold groupby_sum. rewrite map_map. simpl.
  rewrite partition_sum_by; [|apply sort_NoDup, unique_NoDup].
  rewrite filter_all; [reflexivity|].
  intros r Hr. apply isin_In, sorted_unique_In. now apply in_map.
Qed.

Lemma groupby_sum_keys_sorted (key : Row -> string) (l : list Row) :
  StronglySorted string_lt (map fst (groupby_sum key l)).
Proof.
  unfold groupby_sum. rewrite map_map. simpl. rewrite map_id. apply sorted_unique_sorted.
Qed.

(** X1.  The weekly sums of the whole table, over all their buckets (the
    weeks outside the challenge and the ['nan'] bucket included), add up
    to the metric "Gesamt-KM". *)
Theorem weekly_summary_adds_up_to_gesamt_km (df : DataFrame) :
  qsum (map snd (weekly_summary_of df)) == gesamt_km_total df.
Proof. apply groupby_sum_total. Qed.

(** X2.  The team leaderboard accounts for the whole filtered table: its
    totals add up to the summed distance of the rows of [df_filtered].
    So does the runner leaderboard as long as the filtered table has at
    most ten distinct names. *)
Theorem leaderboard_totals_add_up (dff : DataFrame) :
  qsum (map snd (group_ranking dff)) == nansum (map KM (rows dff)) /\
  ((List.length (unique (map Name (rows dff))) <= 10)%nat ->
   qsum (map snd (runner_ranking dff)) == nansum (map KM (rows dff))).
Proof.
  split.
  - unfold group_ranking, sort_desc.
    rewrite (qsum_perm (Permutation_map snd (sort_perm _ (groupby_sum Gruppe (rows dff))))).
    apply groupby_sum_total.
  - intro Hlen. unfold runner_ranking. rewrite firstn_all2.
    + unfold sort_desc.
      rewrite (qsum_perm (Permutation_map snd (sort_perm _ (groupby_sum Name (rows dff))))).
      apply groupby_sum_total.
    + unfold sort_desc, groupby_sum, Py.sorted. now rewrite sort_length, length_map, sort_length.
Qed.

(** X3.  The weekly summary lists every week label of the table exactly
    once, in increasing code point order of the labels (so ['10'] comes
    before ['2']), each with the summed distance of its rows. *)
Theorem weekly_summary_buckets (df : DataFrame) :
  StronglySorted string_lt (map fst (weekly_summary_of df)) /\
  (forall w t, In (w, t) (weekly_summary_of df) <->
               In w (map KW_STR (rows df)) /\ t = week_total (rows df) w) /\
  string_lt "10" "2".
Proof.
  split; [apply groupby_sum_keys_sorted|]. split.
  - intros w t. apply groupby_sum_In_iff.
  - split; [reflexivity | discriminate].
Qed.

(** ** The filters compose *)

Lemma filter_true (A : Type) (l : list A) : filter (fun _ => true) l = l.
Proof. apply filter_all. reflexivity. Qed.

Lemma df_filtered_2_rows (df : DataFrame) (ui : Choice) :
  rows (df_filtered_2 df ui)
  = filter (fun r =>
              (negb (has_Gruppe df) || String.eqb (pick_group ui) "Alle"
               || String.eqb (Gruppe r) (pick_group ui))
              && (negb (has_Name df) || String.eqb (pick_runner ui) "Alle"
                  || String.eqb (Name r) (pick_runner ui)))
           (rows df).
Proof.
  unfold df_filtered_2, selected_runner, df_filtered_1, selected_group.
  destruct (has_Gruppe df) eqn:HG, (has_Name df) eqn:HN; simpl;
    destruct (String.eqb (pick_group ui) "Alle") eqn:EG; simpl; rewrite ?HN; simpl;
      destruct (String.eqb (pick_runner ui) "Alle") eqn:ER; simpl;
        rewrite ?filter_filter_and, ?filter_true; try reflexivity;
          apply filter_ext; intro r; rewrite ?andb_true_r; try reflexivity; apply andb_comm.
Qed.

Lemma df_filtered_rows (df : DataFrame) (ui : Choice) :
  rows (df_filtered df ui) = filter (passes df ui) (rows df).
Proof.
  unfold df_filtered, selected_kw, passes.
  destruct (kw_is_total (pick_kw ui)) eqn:EK; simpl.
  - rewrite df_filtered_2_rows. apply filter_ext. intro r. now rewrite andb_true_r.
  - rewrite df_filtered_2_rows, filter_filter_and. apply filter_ext. intro r. apply andb_comm.
Qed.

(** X4.  The three selectors act as one conjunctive filter: the filtered
    table holds, in their original order, exactly the rows of the table
    that pass the group, the runner and the week selector, and it keeps
    the table's columns. *)
Theorem df_filtered_is_conjunction (df : DataFrame) (ui : Choice) :
  rows (df_filtered df ui) = filter (passes df ui) (rows df) /\
  has_Gruppe (df_filtered df ui) = has_Gruppe df /\
  has_Name (df_filtered df ui) = has_Name df /\
  (forall r, In r (rows (df_filtered df ui)) <-> In r (rows df) /\ passes df ui r = true).
Proof.
  assert (Hrows := df_filtered_rows df ui).
  split; [exact Hrows|]. split; [|split].
  - unfold df_filtered, df_filtered_2, df_filtered_1.
    destruct (has_Gruppe df) eqn:HG; simpl;
      repeat match goal with |- context [if ?b then _ else _] => destruct b; simpl end;
      rewrite ?HG; reflexivity.
  - unfold df_filtered, df_filtered_2, df_filtered_1.
    destruct (has_Name df) eqn:HN; simpl;
      repeat match goal with |- context [if ?b then _ else _] => destruct b; simpl end;
      rewrite ?HN; reflexivity.
  - intro r. rewrite Hrows. apply filter_In.
Qed.

Lemma df_base_kw_eq (df : DataFrame) (ui : Choice) : df_base_kw df ui = df_filtered_2 df ui.
Proof.
  unfold df_base_kw, df_filtered_2, selected_runner, df_filtered_1, selected_group.
  destruct (has_Gruppe df) eqn:HG; simpl.
  - destruct (String.eqb (pick_group ui) "Alle"); simpl;
      destruct (has_Name df) eqn:HN; simpl; try reflexivity;
        destruct (String.eqb (pick_runner ui) "Alle"); reflexivity.
  - destruct (has_Name df) eqn:HN; simpl; reflexivity.
Qed.

(** X5.  The weekly chart of section 9 filters the table again by group
    and runner; the table it reaches is the sidebar's filtered table
    before the week filter, and the table behind the leaderboards and
    the detail view is that table narrowed to the selected week. *)
Theorem weekly_chart_base_is_sidebar_table (df : DataFrame) (ui : Choice) :
  df_base_kw df ui = df_filtered_2 df ui /\
  rows (df_filtered df ui)
  = if kw_is_total (pick_kw ui) then rows (df_base_kw df ui)
    else filter (kw_matches (pick_kw ui)) (rows (df_base_kw df ui)).
Proof.
  assert (H := df_base_kw_eq df ui).
  split; [exact H|]. rewrite H. unfold df_filtered, selected_kw.
  destruct (kw_is_total (pick_kw ui)); reflexivity.
Qed.

(** X6.  While the runner selector stands on ['Alle'], the runner chart
    of section 7 and the runner leaderboard are built from the same
    rows: the leaderboard is the first ten bars of the chart. *)
Theorem runner_board_is_chart_head (df : DataFrame) (ui : Choice) :
  selected_runner df ui = "Alle"%string ->
  df_base_runner df ui = df_filtered df ui /\
  runner_ranking (df_filtered df ui) = firstn 10 (runner_summary df ui).
Proof.
  intro Hsel.
  assert (H : df_base_runner df ui = df_filtered df ui).
  { unfold df_base_runner, df_filtered, df_filtered_2. rewrite Hsel. simpl.
    assert (H1 : (if negb (String.eqb (selected_group df ui) "Alle")
                  then where_eq Gruppe (selected_group df ui) df else df)
                 = df_filtered_1 df ui).
    { unfold df_filtered_1, selected_group. destruct (has_Gruppe df); reflexivity. }
    rewrite H1. destruct (has_Name (df_filtered_1 df ui)); reflexivity. }
  split; [exact H|]. unfold runner_ranking, runner_summary. now rewrite H.
Qed.

(** With group X selected and no runner selected. *)
Lemma runner_board_is_chart_head_witness :
  selected_runner (df_of sheet_two_runners) (mkChoice "X" "Alle" (inl "Gesamt"%string))
    = "Alle"%string /\
  runner_ranking (df_filtered (df_of sheet_two_runners) (mkChoice "X" "Alle" (inl "Gesamt"%string)))
  = firstn 10 (runner_summary (df_of sheet_two_runners) (mkChoice "X" "Alle" (inl "Gesamt"%string))).
Proof.
  split; [reflexivity|].
  exact (proj2 (@runner_board_is_chart_head (df_of sheet_two_runners)
                  (mkChoice "X" "Alle" (inl "Gesamt"%string)) eq_refl)).
Defined.

(** ** The charts fill in what is missing *)

Lemma reindex_groupby_sum (key : Row -> string) (keys : list string) (l : list Row) :
  reindex keys 0 (groupby_sum key l)
  = map (fun k => (k, nansum (map KM (filter (fun r => String.eqb (key r) k) l)))) keys.
Proof.
  unfold reindex. apply map_ext. intro k. rewrite lookup_groupby_sum.
  destruct (Py.isin k (map key l)) eqn:E; [reflexivity|].
  rewrite filter_none; [reflexivity|].
  intros r Hr. apply String.eqb_neq. intro Ek.
  assert (Hin : In k (map key l)) by (rewrite <- Ek; now apply in_map).
  apply isin_In in Hin. congruence.
Qed.

Lemma group_bar_data_bars (df : DataFrame) (sel : string + Z) :
  group_bar_data df sel
  = (if negb (empty (df_base df sel)) then sort_desc else (fun l => l))
      (map (fun g => (g, group_km (rows (df_base df sel)) g)) (all_groups df)).
Proof.
  unfold group_bar_data. destruct (empty (df_base df sel)) eqn:E; simpl.
  - apply map_ext. intro g. unfold empty in E.
    destruct (rows (df_base df sel)); [reflexivity | discriminate].
  - now rewrite reindex_groupby_sum.
Qed.

Lemma group_bar_data_perm (df : DataFrame) (sel : string + Z) :
  Permutation (group_bar_data df sel)
              (map (fun g => (g, group_km (rows (df_base df sel)) g)) (all_groups df)).
Proof.
  rewrite group_bar_data_bars.
  destruct (negb (empty (df_base df sel))); [apply sort_perm | apply Permutation_refl].
Qed.

Lemma group_bar_data_In (df : DataFrame) (sel : string + Z) (g : string) (t : Q) :
  In (g, t) (group_bar_data df sel) <->
  In g (map Gruppe (rows df)) /\ t = group_km (rows (df_base df sel)) g.
Proof.
  split.
  - intro H. apply (Permutation_in _ (group_bar_data_perm df sel)) in H.
    apply in_map_iff in H as [k [E Hk]]. injection E as -> <-.
    split; [|reflexivity]. unfold all_groups, groups in Hk.
    exact (proj1 (sorted_unique_In _ _) Hk).
  - intros [Hg ->]. apply (Permutation_in _ (Permutation_sym (group_bar_data_perm df sel))).
    apply in_map_iff. exists g. split; [reflexivity|].
    unfold all_groups, groups. now apply sorted_unique_In.
Qed.

(** X7.  The group chart never omits a group: whatever week is selected,
    it shows every group of the whole table exactly once, with the
    group's summed distance over the rows of the selected week (0 when
    the group has none); when the selection has rows at all, the bars
    are in descending order. *)
Theorem group_chart_shows_every_group (df : DataFrame) (sel : string + Z) :
  Permutation (map fst (group_bar_data df sel)) (all_groups df) /\
  NoDup (map fst (group_bar_data df sel)) /\
  List.length (group_bar_data df sel) = anzahl_gruppen df /\
  (forall g t, In (g, t) (group_bar_data df sel) <->
               In g (map Gruppe (rows df)) /\ t = group_km (rows (df_base df sel)) g) /\
  (empty (df_base df sel) = false -> StronglySorted at_least (group_bar_data df sel)).
Proof.
  set (bars := map (fun g => (g, group_km (rows (df_base df sel)) g)) (all_groups df)).
  assert (Hfst : map fst bars = all_groups df).
  { unfold bars. rewrite map_map. simpl. apply map_id. }
  assert (Hperm : Permutation (group_bar_data df sel) bars) by apply group_bar_data_perm.
  assert (Hnd : NoDup (all_groups df)).
  { unfold all_groups, groups, Py.sorted. apply sort_NoDup, unique_NoDup. }
  split; [|split; [|split; [|split]]].
  - rewrite <- Hfst. now apply Permutation_map.
  - eapply Permutation_NoDup; [apply Permutation_sym, Permutation_map, Hperm|].
    now rewrite Hfst.
  - rewrite (Permutation_length Hperm). unfold bars, all_groups, anzahl_gruppen, Py.sorted.
    now rewrite length_map, sort_length.
  - intros g t. apply group_bar_data_In.
  - intro E. rewrite group_bar_data_bars, E. simpl. apply sort_desc_sorted.
Qed.

Lemma weekly_summary_chart_eq (df : DataFrame) (ui : Choice) :
  weekly_summary_chart df ui
  = map (fun w => (w, week_total (rows (df_base_kw df ui)) w)) CHALLENGE_KWS_STR.
Proof.
  unfold weekly_summary_chart. destruct (empty (df_base_kw df ui)) eqn:E; simpl negb; cbv iota.
  - apply map_ext. intro w. unfold empty in E.
    destruct (rows (df_base_kw df ui)); [reflexivity | discriminate].
  - now rewrite reindex_groupby_sum.
Qed.

(** X8.  The weekly chart always has the eighteen challenge weeks as its
    bars, in canonical order; each bar is the summed distance of the
    rows of that week label in the table narrowed by group and runner
    (0 without such rows), and rows with any other label are in no bar. *)
Theorem weekly_chart_bars (df : DataFrame) (ui : Choice) :
  weekly_summary_chart df ui
  = map (fun w => (w, week_total (rows (df_base_kw df ui)) w)) CHALLENGE_KWS_STR /\
  map fst (weekly_summary_chart df ui) = CHALLENGE_KWS_STR /\
  qsum (map snd (weekly_summary_chart df ui))
  == nansum (map KM (filter (fun r => Py.isin (KW_STR r) CHALLENGE_KWS_STR)
                            (rows (df_base_kw df ui)))).
Proof.
  split; [apply weekly_summary_chart_eq|]. rewrite weekly_summary_chart_eq. split.
  - rewrite map_map. apply map_id.
  - rewrite map_map. cbn [snd]. unfold week_total.
    apply (partition_sum_by KW_STR (rows (df_base_kw df ui)) CHALLENGE_KWS_STR_NoDup).
Qed.

(** ** The longest run and the records section *)

Lemma idxmax_from_spec (l : list (option Q)) :
  forall (i : nat) (best : option (nat * Q)) (k : nat),
    idxmax_from i best l = Some k ->
    (exists b, best = Some (k, b) /\
               forall j q', nth_error l j = Some (Some q') -> q' <= b) \/
    (exists j q, k = (i + j)%nat /\ nth_error l j = Some (Some q) /\
                 (forall k0 b0, best = Some (k0, b0) -> b0 < q) /\
                 (forall j' q', nth_error l j' = Some (Some q') -> q' <= q) /\
                 (forall j' q', (j' < j)%nat -> nth_error l j' = Some (Some q') -> q' < q)).
Proof.
  induction l as [|x l IH]; intros i best k H.
  - left. destruct best as [[k0 b]|]; simpl in H; [|discriminate].
    injection H as ->. exists b. split; [reflexivity|]. intros [|j] q' Hj; discriminate Hj.
  - destruct x as [q|].
    + assert (Hstep : forall k1 b1,
                 idxmax_from (S i) (Some (k1, b1)) l = Some k ->
                 q <= b1 ->
                 (k = k1 /\ forall j q', nth_error (Some q :: l) j = Some (Some q') -> q' <= b1) \/
                 (exists j q2, k = (i + j)%nat /\ nth_error (Some q :: l) j = Some (Some q2) /\
                               b1 < q2 /\
                               (forall j' q', nth_error (Some q :: l) j' = Some (Some q') -> q' <= q2) /\
                               (forall j' q', (j' < j)%nat ->
                                              nth_error (Some q :: l) j' = Some (Some q') -> q' < q2))).
      { intros k1 b1 H1 Hq. destruct (IH _ _ _ H1) as [[b [E Hall]]|[j [q2 [Ek [Hj [Hb [Hall Hlt]]]]]]].
        - injection E as <- <-. left. split; [reflexivity|].
          intros [|j] q' Hj; simpl in Hj; [injection Hj as <-; exact Hq | now apply (Hall j)].
        - right. exists (S j), q2. assert (Hb' := Hb _ _ eq_refl).
          split; [lia|]. split; [exact Hj|]. split; [exact Hb'|]. split.
          + intros [|j'] q' Hj'; simpl in Hj'; [injection Hj' as <-; lra | now apply (Hall j')].
          + intros [|j'] q' Hlt' Hj'; simpl in Hj'; [injection Hj' as <-; lra|].
            apply (Hlt j'); [lia | exact Hj']. }
      simpl in H. destruct best as [[k0 b]|].
      * destruct (Qle_bool q b) eqn:E.
        -- apply Qle_bool_iff in E. destruct (Hstep _ _ H E) as [[-> Hall]|[j [q2 [Ek [Hj [Hb R]]]]]].
           ++ left. exists b. now split.
           ++ right. exists j, q2. split; [exact Ek|]. split; [exact Hj|]. split; [|exact R].
              intros k1 b1 Eb. injection Eb as <- <-. exact Hb.
        -- assert (Hlt : b < q).
           { destruct (Qlt_le_dec b q) as [Hl|Hl]; [exact Hl|].
             apply Qle_bool_iff in Hl. congruence. }
           destruct (Hstep _ _ H (Qle_refl q)) as [[-> Hall]|[j [q2 [Ek [Hj [Hb R]]]]]].
           ++ right. exists 0%nat, q. split; [lia|]. split; [reflexivity|]. split.
              ** intros k1 b1 Eb. injection Eb as <- <-. exact Hlt.
              ** split; [exact Hall | intros j' q' Hj'; lia].
           ++ right. exists j, q2. split; [exact Ek|]. split; [exact Hj|]. split; [|exact R].
              intros k1 b1 Eb. injection Eb as <- <-. lra.
      * destruct (Hstep _ _ H (Qle_refl q)) as [[-> Hall]|[j [q2 [Ek [Hj [Hb R]]]]]].
        -- right. exists 0%nat, q. split; [lia|]. split; [reflexivity|]. split.
           ++ intros k1 b1 Eb. discriminate Eb.
           ++ split; [exact Hall | intros j' q' Hj'; lia].
        -- right. exists j, q2. split; [exact Ek|]. split; [exact Hj|]. split; [|exact R].
           intros k1 b1 Eb. discriminate Eb.
    + simpl in H. destruct (IH _ _ _ H) as [[b [E Hall]]|[j [q2 [Ek [Hj [Hb [Hall Hlt]]]]]]].
      * left. exists b. split; [exact E|].
        intros [|j] q' Hj; simpl in Hj; [discriminate Hj | now apply (Hall j)].
      * right. exists (S j), q2. split; [lia|]. split; [exact Hj|]. split; [exact Hb|]. split.
        -- intros [|j'] q' Hj'; simpl in Hj'; [discriminate Hj' | now apply (Hall j')].
        -- intros [|j'] q' Hlt' Hj'; simpl in Hj'; [discriminate Hj'|].
           apply (Hlt j'); [lia | exact Hj'].
Qed.

Lemma idxmax_spec (l : list (option Q)) (k : nat) :
  idxmax l = Some k ->
  exists q, nth_error l k = Some (Some q) /\
            (forall j q', nth_error l j = Some (Some q') -> q' <= q) /\
            (forall j q', (j < k)%nat -> nth_error l j = Some (Some q') -> q' < q).
Proof.
  intro H. destruct (@idxmax_from_spec l 0 None k H) as [[b [E _]]|[j [q [Ek [Hj [_ [Hall Hlt]]]]]]];
    [discriminate E|].
  simpl in Ek. subst j. exists q. now repeat split.
Qed.

Lemma idxmax_from_none (l : list (option Q)) :
  forall (i : nat) (best : option (nat * Q)),
    idxmax_from i best l = None -> best = None /\ forall x, In x l -> x = None.
Proof.
  induction l as [|x l IH]; intros i best H.
  - destruct best; [discriminate H|]. split; [reflexivity | intros x []].
  - destruct x as [q|]; simpl in H.
    + exfalso. destruct best as [[k0 b]|]; [destruct (Qle_bool q b)|];
        apply IH in H as [H _]; discriminate H.
    + apply IH in H as [H1 H2]. split; [exact H1|]. intros x [<-|Hx]; [reflexivity | now apply H2].
Qed.

Lemma nansum_all_missing (l : list (option Q)) :
  (forall x, In x l -> x = None) -> nansum l = 0.
Proof.
  induction l as [|x l IH]; intro H; [reflexivity|].
  simpl. rewrite (H x (or_introl eq_refl)), IH; [reflexivity|].
  intros y Hy. apply H. now right.
Qed.

(** Past the "no data" stop the table has a longest run. *)
Lemma longest_run_exists (df : DataFrame) :
  no_data df = false -> exists r, max_km_entry df = Ok r.
Proof.
  unfold no_data. intro H. apply orb_false_iff in H as [_ H].
  unfold max_km_entry. destruct (idxmax (map KM (rows df))) as [i|] eqn:E.
  - destruct (@idxmax_spec _ _ E) as [q [Hi _]].
    destruct (nth_error (rows df) i) as [r|] eqn:Er; [now exists r|].
    rewrite nth_error_map, Er in Hi. discriminate Hi.
  - exfalso. apply idxmax_from_none in E as [_ E].
    rewrite (@nansum_all_missing _ E) in H. discriminate H.
Qed.

(** X9.  The "longest single distance" record is taken from the first
    row that reaches the largest valid distance of the table: the row
    has a valid distance, no valid distance is larger, every earlier
    valid distance is smaller, and rows with a missing distance are
    never chosen. *)
Theorem longest_run_is_first_maximum (df : DataFrame) (r : Row) :
  max_km_entry df = Ok r ->
  exists i q,
    nth_error (rows df) i = Some r /\ KM r = Some q /\
    (forall r' q', In r' (rows df) -> KM r' = Some q' -> q' <= q) /\
    (forall j r' q', (j < i)%nat -> nth_error (rows df) j = Some r' ->
                     KM r' = Some q' -> q' < q).
Proof.
  unfold max_km_entry. destruct (idxmax (map KM (rows df))) as [i|] eqn:E; [|discriminate].
  destruct (nth_error (rows df) i) as [r0|] eqn:Er; [|discriminate].
  intro H. injection H as <-. destruct (@idxmax_spec _ _ E) as [q [Hi [Hall Hlt]]].
  rewrite nth_error_map, Er in Hi. simpl in Hi. injection Hi as Hq.
  exists i, q. split; [exact Er|]. split; [exact Hq|]. split.
  - intros r' q' Hin Hq'. apply In_nth_error in Hin as [j Hj].
    apply (Hall j). now rewrite nth_error_map, Hj, <- Hq'.
  - intros j r' q' Hji Hj Hq'. apply (Hlt j); [exact Hji|].
    now rewrite nth_error_map, Hj, <- Hq'.
Qed.

(** The sheet with a distance ['abc']: the longest run is the second
    row. *)
Lemma longest_run_is_first_maximum_witness :
  max_km_entry (df_of sheet_bad_km)
    = Ok (mkRow "A" "X" (Some 5) (Some (mkDate 3 11 2025)) (Some 47%Z) "47") /\
  exists i q,
    nth_error (rows (df_of sheet_bad_km)) i
      = Some (mkRow "A" "X" (Some 5) (Some (mkDate 3 11 2025)) (Some 47%Z) "47") /\
    KM (mkRow "A" "X" (Some 5) (Some (mkDate 3 11 2025)) (Some 47%Z) "47") = Some q /\
    (forall r' q', In r' (rows (df_of sheet_bad_km)) -> KM r' = Some q' -> q' <= q) /\
    (forall j r' q', (j < i)%nat -> nth_error (rows (df_of sheet_bad_km)) j = Some r' ->
                     KM r' = Some q' -> q' < q).
Proof.
  split; [reflexivity|].
  exact (@longest_run_is_first_maximum (df_of sheet_bad_km) _ eq_refl).
Defined.

Lemma run_unfold (raw : RawFrame) (ui : Choice) :
  run raw ui
  = if no_data (df_of raw) then Stopped
    else match (if has_Name (df_of raw)
                then r <- records (df_of raw) ;; Ok (Some r)
                else Ok None) with
         | Raise e => Uncaught e
         | Ok recs =>
             PastRecords (mkProgress (df_filtered (df_of raw) ui)
                                     (gesamt_km_total (df_of raw))
                                     (anzahl_laeufe_total (df_of raw)) recs)
         end.
Proof.
  unfold run, df_of. destruct (transform_data raw) as [[df ws] gw]. reflexivity.
Qed.

(** X10.  Past the "no data" stop the records section finds a longest
    run, and it fails exactly when that row has no date: with a date it
    yields the row's distance and runner together with the "most
    entries" tally, without one [strftime] raises the [ValueError].  The
    lookup of the longest run itself never fails there. *)
Theorem records_fail_exactly_without_date (df : DataFrame) :
  no_data df = false ->
  exists r,
    max_km_entry df = Ok r /\
    (Datum r = None <->
     records df = Raise (ValueError "NaTType does not support strftime")) /\
    (forall d, Datum r = Some d ->
       exists recs,
         records df = Ok recs /\
         max_km recs = nan0 (KM r) /\ max_km_runner recs = Name r /\
         strftime_dm (Some d) = Ok (max_km_date recs) /\
         rec_most_runs recs = most_runs df /\ rec_runners_list recs = runners_list df).
Proof.
  intro Hd. destruct (longest_run_exists _ Hd) as [r Hr]. exists r.
  split; [exact Hr|]. unfold records. rewrite Hr. simpl. split.
  - destruct (Datum r); simpl; split; intro H; try reflexivity; discriminate H.
  - intros d ->. simpl. eexists. split; [reflexivity|]. simpl. now repeat split.
Qed.

(** The sheet with a distance ['abc']: the longest run has a date. *)
Lemma records_fail_exactly_without_date_witness :
  no_data (df_of sheet_bad_km) = false /\
  exists r,
    max_km_entry (df_of sheet_bad_km) = Ok r /\
    (Datum r = None <->
     records (df_of sheet_bad_km) = Raise (ValueError "NaTType does not support strftime")) /\
    (forall d, Datum r = Some d ->
       exists recs,
         records (df_of sheet_bad_km) = Ok recs /\
         max_km recs = nan0 (KM r) /\ max_km_runner recs = Name r /\
         strftime_dm (Some d) = Ok (max_km_date recs) /\
         rec_most_runs recs = most_runs (df_of sheet_bad_km) /\
         rec_runners_list recs = runners_list (df_of sheet_bad_km)).
Proof.
  split; [reflexivity|].
  exact (@records_fail_exactly_without_date (df_of sheet_bad_km) eq_refl).
Defined.

(** X11.  A sheet on which no distance cell parses never reaches the
    records section: the total is 0 and the script stops at the "no
    data" notice. *)
Theorem all_distances_missing_stops (raw : RawFrame) (ui : Choice) :
  (forall r, In r (raw_rows raw) -> coerce (raw_KM r) = None) ->
  gesamt_km_total (df_of raw) = 0 /\ run raw ui = Stopped.
Proof.
  intro H.
  assert (Hz : gesamt_km_total (df_of raw) = 0).
  { unfold gesamt_km_total. apply nansum_all_missing. intros x Hx.
    apply in_map_iff in Hx as [r [<- Hr]]. unfold df_of, transform_data in Hr.
    destruct (raw_has_KM raw); simpl in Hr; [|destruct Hr].
    apply in_map_iff in Hr as [x [<- Hx]]. simpl. now apply H. }
  split; [exact Hz|]. rewrite run_unfold.
  unfold no_data. unfold gesamt_km_total in Hz. rewrite Hz. simpl.
  now rewrite orb_true_r.
Qed.

(** Two runs with the distances ['zehn'] and ['']. *)
Lemma all_distances_missing_stops_witness :
  (forall r, In r (raw_rows sheet_no_distance) -> coerce (raw_KM r) = None) /\
  run sheet_no_distance no_choice = Stopped.
Proof.
  assert (H : forall r, In r (raw_rows sheet_no_distance) -> coerce (raw_KM r) = None).
  { intros r [<-|[<-|[]]]; reflexivity. }
  split; [exact H|].
  exact (proj2 (@all_distances_missing_stops sheet_no_distance no_choice H)).
Defined.

(** ** Week numbers and week labels *)

Lemma to_int_not_nil (z : Z) :
  Z.to_int z <> Decimal.Pos Decimal.Nil /\ Z.to_int z <> Decimal.Neg Decimal.Nil.
Proof.
  destruct z as [|p|p]; simpl; split; try discriminate; intro H; injection H as H;
    now apply (DecimalPos.Unsigned.to_uint_nonnil p).
Qed.

(** [str] on integers can be read back. *)
Lemma str_inj (a b : Z) : Py.str a = Py.str b -> a = b.
Proof.
  unfold Py.str. intro H. apply DecimalZ.to_int_inj.
  destruct (to_int_not_nil a) as [A1 A2], (to_int_not_nil b) as [B1 B2].
  assert (E : Some (Z.to_int a) = Some (Z.to_int b)).
  { rewrite <- (NilZero.isi _ A1 A2), <- (NilZero.isi _ B1 B2). now rewrite H. }
  now injection E.
Qed.

Lemma string_length_append (a b : string) :
  String.length (a ++ b) = (String.length a + String.length b)%nat.
Proof. induction a as [|c a IH]; simpl; [reflexivity | now rewrite IH]. Qed.

Lemma str_nonempty (z : Z) : (1 <= String.length (Py.str z))%nat.
Proof.
  unfold Py.str. destruct (Z.to_int z) as [d|d]; destruct d; simpl; lia.
Qed.

Lemma float_label_not_challenge (z : Z) :
  Py.isin (Py.str z ++ ".0") CHALLENGE_KWS_STR = false.
Proof.
  destruct (Py.isin (Py.str z ++ ".0") CHALLENGE_KWS_STR) eqn:E; [|reflexivity].
  exfalso. apply isin_In in E.
  assert (Hlen : (String.length (Py.str z ++ ".0") <= 2)%nat).
  { revert E. generalize (Py.str z ++ ".0")%string. intros s Hs.
    repeat (destruct Hs as [<-|Hs]; [simpl; lia|]). destruct Hs. }
  rewrite string_length_append in Hlen. assert (H1 := str_nonempty z). simpl in Hlen. lia.
Qed.

Lemma isin_map_str (z : Z) (l : list Z) : Py.isin (Py.str z) (map Py.str l) = true <-> In z l.
Proof.
  rewrite isin_In, in_map_iff. split.
  - intros [y [E Hy]]. apply str_inj in E. now subst.
  - intro H. now exists z.
Qed.

(** X12.  On a sheet whose week cells all hold whole numbers that fit
    [int64], so that the week column is downcast to an integer dtype,
    the printed week label can be read back: a row's label is the
    decimal form of its week number, the week selector's numeric
    comparison picks exactly the rows filed under that label, and the
    row counts as a challenge week exactly when its number is in
    [CHALLENGE_KWS]. *)
Theorem week_label_matches_number (raw : RawFrame) (r : Row) :
  raw_has_KM raw = true ->
  kw_downcast (raw_rows raw) = true ->
  In r (rows (df_of raw)) ->
  (exists z, KW r = Some z /\ KW_STR r = Py.str z) /\
  (forall z, kw_matches (inr z) r = true <-> KW_STR r = Py.str z) /\
  (Py.isin (KW_STR r) CHALLENGE_KWS_STR = true <->
   exists z, KW r = Some z /\ In z CHALLENGE_KWS).
Proof.
  intros HK Hint Hr.
  assert (Hlab := transform_rows_label raw r HK Hr). rewrite Hint in Hlab.
  assert (Hsome : exists z, KW r = Some z).
  { unfold df_of, transform_data in Hr. rewrite HK in Hr. simpl in Hr.
    apply in_map_iff in Hr as [x [<- Hx]]. simpl.
    unfold kw_downcast, kw_int_dtype in Hint. apply andb_true_iff in Hint as [Hint _].
    rewrite forallb_forall in Hint. specialize (Hint x Hx).
    destruct (coerce (raw_KW x)) as [z|]; [now exists z | discriminate]. }
  destruct Hsome as [z Hz]. rewrite Hz in Hlab. simpl in Hlab.
  split; [now exists z|]. split.
  - intro z'. unfold kw_matches. rewrite Hz, Hlab. rewrite Z.eqb_eq. split.
    + now intros ->.
    + apply str_inj.
  - rewrite Hlab. unfold CHALLENGE_KWS_STR. rewrite isin_map_str. split.
    + intro H. now exists z.
    + intros [z' [E H]]. rewrite Hz in E. now injection E as ->.
Qed.

(** The first row of the sheet with data in weeks 1 and 46. *)
Lemma week_label_matches_number_witness :
  raw_has_KM sheet_wrap = true /\
  kw_downcast (raw_rows sheet_wrap) = true /\
  In (mkRow "A" "X" (Some 5) (Some (mkDate 3 11 2025)) (Some 1%Z) "1") (rows (df_of sheet_wrap)) /\
  (forall z, kw_matches (inr z) (mkRow "A" "X" (Some 5) (Some (mkDate 3 11 2025)) (Some 1%Z) "1")
             = true
             <-> KW_STR (mkRow "A" "X" (Some 5) (Some (mkDate 3 11 2025)) (Some 1%Z) "1")
                 = Py.str z).
Proof.
  split; [reflexivity|]. split; [reflexivity|]. split; [now left|].
  exact (proj1 (proj2 (@week_label_matches_number sheet_wrap _ eq_refl eq_refl
                          (or_introl eq_refl)))).
Defined.

Lemma float_column_labels (raw : RawFrame) (r : Row) :
  raw_has_KM raw = true ->
  kw_int_dtype (raw_rows raw) = false ->
  In r (rows (df_of raw)) ->
  Py.isin (KW_STR r) CHALLENGE_KWS_STR = false /\
  forall z, KW r = Some z -> KW_STR r = (Py.str z ++ ".0")%string.
Proof.
  intros HK Hint Hr. rewrite (transform_rows_label raw r HK Hr).
  unfold kw_downcast. rewrite Hint. simpl andb.
  destruct (KW r) as [z|]; simpl.
  - split; [apply float_label_not_challenge | intros z' E; now injection E as ->].
  - split; [reflexivity | discriminate].
Qed.

(** X13.  One rejected week cell changes every label: the week column
    stays a float column, each parsed week is printed with a trailing
    [.0], and no row carries a challenge-week label any more.  The
    cumulative group table is then empty, the sidebar's weekly summary
    is empty and every bar of the weekly chart is 0, whatever is
    selected. *)
Theorem rejected_week_cell_empties_week_tables (raw : RawFrame) (ui : Choice) :
  raw_has_KM raw = true ->
  kw_int_dtype (raw_rows raw) = false ->
  (forall r z, In r (rows (df_of raw)) -> KW r = Some z ->
               KW_STR r = (Py.str z ++ ".0")%string) /\
  df_filtered_kws (df_of raw) = [] /\
  group_weekly raw = [] /\
  weekly_summary_filtered (df_of raw) ui = [] /\
  (forall p, In p (weekly_summary_chart (df_of raw) ui) -> snd p = 0).
Proof.
  intros HK Hint.
  assert (Hno : forall r, In r (rows (df_of raw)) -> Py.isin (KW_STR r) CHALLENGE_KWS_STR = false).
  { intros r Hr. now apply (float_column_labels raw r HK Hint Hr). }
  assert (Hkws : df_filtered_kws (df_of raw) = []).
  { unfold df_filtered_kws. now apply filter_none. }
  split; [|split; [|split; [|split]]].
  - intros r z Hr. now apply (float_column_labels raw r HK Hint Hr).
  - exact Hkws.
  - assert (Hgw : group_weekly raw = group_weekly_of (df_of raw)).
    { unfold group_weekly, df_of, transform_data. rewrite HK. reflexivity. }
    rewrite Hgw. unfold group_weekly_of. rewrite Hkws. now destruct (has_Gruppe (df_of raw)).
  - unfold weekly_summary_filtered. rewrite filter_none; [reflexivity|].
    intros [w t] Hp. simpl. apply groupby_sum_In_iff in Hp as [Hw _].
    apply in_map_iff in Hw as [r [<- Hr]]. apply Hno.
    rewrite df_filtered_rows in Hr. now apply filter_In in Hr as [Hr _].
  - intros p Hp. rewrite weekly_summary_chart_eq in Hp. apply in_map_iff in Hp as [w [<- Hw]].
    simpl. unfold week_total. rewrite filter_none; [reflexivity|].
    intros r Hr. apply String.eqb_neq. intros E.
    rewrite df_base_kw_eq, df_filtered_2_rows in Hr. apply filter_In in Hr as [Hr _].
    apply Hno in Hr. rewrite E in Hr. apply isin_In in Hw. congruence.
Qed.

(** The sheet with one empty week cell. *)
Lemma rejected_week_cell_empties_week_tables_witness :
  raw_has_KM sheet_bad_week = true /\
  kw_int_dtype (raw_rows sheet_bad_week) = false /\
  group_weekly sheet_bad_week = [] /\
  (forall p, In p (weekly_summary_chart (df_of sheet_bad_week) no_choice) -> snd p = 0).
Proof.
  split; [reflexivity|]. split; [reflexivity|].
  assert (H := @rejected_week_cell_empties_week_tables sheet_bad_week no_choice eq_refl eq_refl).
  split; [exact (proj1 (proj2 (proj2 H))) | exact (proj2 (proj2 (proj2 (proj2 H))))].
Defined.

(** ** Leaderboards against their scale and against the group chart *)

Lemma sorted_head_is_max (r : list (string * Q)) (p : string * Q) (rest : list (string * Q)) :
  StronglySorted at_least r -> r = p :: rest -> max_or_100 r == snd p.
Proof.
  intros Hs ->. assert (Hsc := max_or_100_scaled (p :: rest)).
  destruct Hsc as [[q [Hq Eq]] Hall]. apply Qle_antisym.
  - rewrite <- Eq. destruct Hq as [<-|Hq]; [apply Qle_refl|].
    apply StronglySorted_inv in Hs as [_ Hs]. rewrite Forall_forall in Hs. now apply Hs.
  - apply Hall. now left.
Qed.

(** X14.  In both leaderboards the first place fills its bar: the scale
    equals the total of the first row.  The runner board's scale is also
    the largest total among all runners of the filtered table, not only
    among the ten shown.  A board is empty, with the scale 100, exactly
    when the filtered table has no rows. *)
Theorem first_place_fills_bar (dff : DataFrame) :
  (forall p rest, runner_ranking dff = p :: rest ->
     max_runner_km dff == snd p /\
     forall q, In q (groupby_sum Name (rows dff)) -> snd q <= max_runner_km dff) /\
  (forall p rest, group_ranking dff = p :: rest -> max_group_km dff == snd p) /\
  (runner_ranking dff = [] <-> rows dff = []) /\
  (group_ranking dff = [] <-> rows dff = []) /\
  (rows dff = [] -> max_runner_km dff = 100 /\ max_group_km dff = 100).
Proof.
  assert (Hs := sort_desc_sorted (groupby_sum Name (rows dff))).
  rewrite <- (firstn_skipn 10 (sort_desc (groupby_sum Name (rows dff)))) in Hs.
  apply StronglySorted_app in Hs as [Hs1 Hs2].
  assert (Hempty : forall key, sort_desc (groupby_sum key (rows dff)) = [] <-> rows dff = []).
  { intro key. split.
    - intro H. apply (f_equal (@List.length _)) in H. unfold sort_desc, groupby_sum, Py.sorted in H.
      rewrite sort_length, length_map, sort_length in H. simpl in H.
      destruct (rows dff) as [|r l]; [reflexivity | discriminate H].
    - intros ->. reflexivity. }
  split; [|split; [|split; [|split]]].
  - intros p rest E.
    assert (Hmax : max_runner_km dff == snd p) by (apply (sorted_head_is_max Hs1 E)).
    split; [exact Hmax|]. intros q Hq. rewrite Hmax.
    apply (sort_In (fun a b : string * Q => Qle_bool (snd b) (snd a))) in Hq.
    fold (sort_desc (groupby_sum Name (rows dff))) in Hq.
    rewrite <- (firstn_skipn 10 (sort_desc (groupby_sum Name (rows dff)))) in Hq.
    fold (runner_ranking dff) in Hq, Hs1, Hs2. rewrite E in Hq, Hs1, Hs2.
    apply in_app_or in Hq as [[<-|Hq]|Hq].
    + apply Qle_refl.
    + apply StronglySorted_inv in Hs1 as [_ Hs1]. rewrite Forall_forall in Hs1. now apply Hs1.
    + apply (Hs2 p q); [now left | exact Hq].
  - intros p rest E. apply (sorted_head_is_max (sort_desc_sorted _) E).
  - unfold runner_ranking. rewrite <- (Hempty Name). split.
    + intro H. destruct (sort_desc (groupby_sum Name (rows dff))); [reflexivity | discriminate H].
    + intros ->. reflexivity.
  - apply Hempty.
  - intros E. unfold max_runner_km, max_group_km, runner_ranking, group_ranking.
    rewrite E. split; reflexivity.
Qed.

Lemma group_ranking_In (dff : DataFrame) (g : string) (t : Q) :
  In (g, t) (group_ranking dff) <->
  In g (map Gruppe (rows dff)) /\ t = group_km (rows dff) g.
Proof.
  unfold group_ranking, sort_desc. rewrite sort_In. apply groupby_sum_In_iff.
Qed.

(** X15.  With the group and the runner selector on ['Alle'], the team
    leaderboard and the group chart agree for every week selection: each
    row of the leaderboard is a bar of the chart, and the bars that are
    not rows of the leaderboard belong to groups without a run in the
    selection and show 0. *)
Theorem team_board_within_group_chart (df : DataFrame) (ui : Choice) :
  pick_group ui = "Alle"%string ->
  pick_runner ui = "Alle"%string ->
  rows (df_filtered df ui) = rows (df_base df (pick_kw ui)) /\
  (forall g t, In (g, t) (group_ranking (df_filtered df ui)) ->
               In (g, t) (group_bar_data df (pick_kw ui))) /\
  (forall g t, In (g, t) (group_bar_data df (pick_kw ui)) ->
               ~ In (g, t) (group_ranking (df_filtered df ui)) -> t = 0).
Proof.
  intros HG HR.
  assert (Hrows : rows (df_filtered df ui) = rows (df_base df (pick_kw ui))).
  { rewrite df_filtered_rows. unfold passes, df_base. rewrite HG, HR. simpl.
    rewrite !orb_true_r. simpl. destruct (kw_is_total (pick_kw ui)); simpl.
    - apply filter_true.
    - reflexivity. }
  split; [exact Hrows|]. split.
  - intros g t H. apply group_ranking_In in H as [Hg ->]. apply group_bar_data_In.
    rewrite <- Hrows. split; [|reflexivity].
    apply in_map_iff in Hg as [r [<- Hr]]. apply in_map.
    rewrite df_filtered_rows in Hr. now apply filter_In in Hr as [Hr _].
  - intros g t H Hnot. apply group_bar_data_In in H as [Hg ->]. rewrite <- Hrows.
    unfold group_km. rewrite filter_none; [reflexivity|].
    intros r Hr. apply String.eqb_neq. intro E. apply Hnot.
    apply group_ranking_In. split; [rewrite <- E; now apply in_map|].
    now rewrite <- Hrows.
Qed.

(** Week 45 selected on the sheet with three runs of two groups. *)
Lemma team_board_within_group_chart_witness :
  pick_group (mkChoice "Alle" "Alle" (inr 45%Z)) = "Alle"%string /\
  pick_runner (mkChoice "Alle" "Alle" (inr 45%Z)) = "Alle"%string /\
  (forall g t,
      In (g, t) (group_bar_data (df_of sheet_two_runners) (pick_kw (mkChoice "Alle" "Alle" (inr 45%Z)))) ->
      ~ In (g, t) (group_ranking (df_filtered (df_of sheet_two_runners)
                                              (mkChoice "Alle" "Alle" (inr 45%Z)))) ->
      t = 0).
Proof.
  split; [reflexivity|]. split; [reflexivity|].
  exact (proj2 (proj2 (@team_board_within_group_chart (df_of sheet_two_runners)
                         (mkChoice "Alle" "Alle" (inr 45%Z)) eq_refl eq_refl))).
Defined.

(** ** What the selectors can reach *)

Lemma filter_nonempty (A : Type) (p : A -> bool) (l : list A) (x : A) :
  In x l -> p x = true -> filter p l <> [].
Proof.
  intros Hx Hp E. assert (H : In x (filter p l)) by (apply filter_In; now split).
  rewrite E in H. destruct H.
Qed.

(** X16.  Group and runner picks taken from the offered options never
    empty the table: past the "no data" stop the table narrowed by group
    and runner has at least one row, so the weekly chart always takes
    its branch for a non-empty table. *)
Theorem offered_picks_keep_rows (df : DataFrame) (ui : Choice) :
  no_data df = false ->
  In (pick_group ui) (group_options df) ->
  In (pick_runner ui) (runner_options df ui) ->
  rows (df_filtered_2 df ui) <> [] /\ empty (df_base_kw df ui) = false.
Proof.
  intros Hd HG HR.
  assert (Hne : rows df <> []).
  { unfold no_data in Hd. apply orb_false_iff in Hd as [Hd _]. unfold empty in Hd.
    destruct (rows df); [discriminate Hd | discriminate]. }
  assert (H1 : rows (df_filtered_1 df ui) <> []).
  { rewrite df_filtered_1_rows. destruct (has_Gruppe df); simpl; [|exact Hne].
    destruct (String.eqb_spec (pick_group ui) "Alle") as [E|N]; simpl; [exact Hne|].
    destruct HG as [HG|HG]; [now elim N|].
    unfold groups in HG. apply sorted_unique_In, in_map_iff in HG as [r [Er Hr]].
    apply (filter_nonempty _ _ r Hr). now apply String.eqb_eq. }
  assert (H2 : rows (df_filtered_2 df ui) <> []).
  { unfold df_filtered_2. destruct (has_Name (df_filtered_1 df ui)) eqn:HN; [|exact H1].
    unfold selected_runner. rewrite HN.
    destruct (String.eqb_spec (pick_runner ui) "Alle") as [E|N]; simpl; [exact H1|].
    destruct HR as [HR|HR]; [now elim N|].
    unfold runners in HR. apply sorted_unique_In, in_map_iff in HR as [r [Er Hr]].
    apply (filter_nonempty _ _ r Hr). now apply String.eqb_eq. }
  split; [exact H2|]. rewrite df_base_kw_eq. unfold empty.
  destruct (rows (df_filtered_2 df ui)); [now elim H2 | reflexivity].
Qed.

(** Group X and runner B picked on the sheet with three runs. *)
Lemma offered_picks_keep_rows_witness :
  no_data (df_of sheet_two_runners) = false /\
  In (pick_group (mkChoice "X" "B" (inl "Gesamt"%string)))
     (group_options (df_of sheet_two_runners)) /\
  In (pick_runner (mkChoice "X" "B" (inl "Gesamt"%string)))
     (runner_options (df_of sheet_two_runners) (mkChoice "X" "B" (inl "Gesamt"%string))) /\
  empty (df_base_kw (df_of sheet_two_runners) (mkChoice "X" "B" (inl "Gesamt"%string))) = false.
Proof.
  assert (H1 : In (pick_group (mkChoice "X" "B" (inl "Gesamt"%string)))
                  (group_options (df_of sheet_two_runners))) by (right; left; reflexivity).
  assert (H2 : In (pick_runner (mkChoice "X" "B" (inl "Gesamt"%string)))
                  (runner_options (df_of sheet_two_runners)
                                  (mkChoice "X" "B" (inl "Gesamt"%string))))
    by (right; right; left; reflexivity).
  split; [reflexivity|]. split; [exact H1|]. split; [exact H2|].
  exact (proj2 (@offered_picks_keep_rows (df_of sheet_two_runners)
                  (mkChoice "X" "B" (inl "Gesamt"%string)) eq_refl H1 H2)).
Defined.

(** ** The "most entries" record past the stop *)

Lemma count_pos (l : list (option Q)) (q : Q) : In (Some q) l -> (1 <= count l)%nat.
Proof.
  induction l as [|x l IH]; intro H; [destruct H|].
  destruct H as [E|H]; simpl.
  - subst x. lia.
  - destruct x; [lia | now apply IH].
Qed.

Lemma nmax_In (x : nat) (l : list nat) : In (nmax x l) (x :: l).
Proof.
  revert x. induction l as [|y l IH]; intro x; simpl; [now left|].
  destruct (IH (Nat.max x y)) as [E|H]; [|right; now right].
  destruct (Nat.max_spec x y) as [[_ Em]|[_ Em]]; rewrite Em in *.
  - right. now left.
  - now left.
Qed.

(** X17.  Past the "no data" stop the "most entries" record is never
    void: some runner has a run with a valid distance, so the record
    shows at least one run and names at least one runner. *)
Theorem most_runs_record_not_void (df : DataFrame) :
  no_data df = false ->
  (1 <= most_runs df)%nat /\ runners_with_max_runs df <> [].
Proof.
  intro Hd. destruct (longest_run_exists _ Hd) as [r Hr].
  assert (Hrow : In r (rows df) /\ exists q, KM r = Some q).
  { unfold max_km_entry in Hr. destruct (idxmax (map KM (rows df))) as [i|] eqn:E; [|discriminate].
    destruct (@idxmax_spec _ _ E) as [q [Hi _]].
    destruct (nth_error (rows df) i) as [r0|] eqn:Er; [|discriminate].
    injection Hr as <-. split; [now apply (nth_error_In _ i)|].
    rewrite nth_error_map, Er in Hi. simpl in Hi. injection Hi as Hq. now exists q. }
  destruct Hrow as [Hin [q Hq]].
  assert (Hc : (1 <= runner_valid_rows df (Name r))%nat).
  { unfold runner_valid_rows. apply (count_pos _ q). rewrite <- Hq. apply in_map.
    apply filter_In. split; [exact Hin | apply String.eqb_refl]. }
  assert (Hle : (runner_valid_rows df (Name r) <= most_runs df)%nat).
  { unfold most_runs. apply (proj2 (nmax_ge 0 (map snd (runner_runs df)))).
    apply in_map_iff. exists (Name r, runner_valid_rows df (Name r)). split; [reflexivity|].
    apply runner_runs_In. split; [now apply in_map | reflexivity]. }
  split; [lia|].
  destruct (nmax_In 0 (map snd (runner_runs df))) as [E|H].
  - exfalso. unfold most_runs in Hle. lia.
  - fold (most_runs df) in H. apply in_map_iff in H as [[n c] [Ec Hn]]. simpl in Ec. subst c.
    unfold runners_with_max_runs. intro Hnil.
    assert (Hf : In (n, most_runs df)
                    (filter (fun p => Nat.eqb (snd p) (most_runs df)) (runner_runs df))).
    { apply filter_In. split; [exact Hn | simpl; apply Nat.eqb_refl]. }
    apply (in_map fst) in Hf. rewrite Hnil in Hf. destruct Hf.
Qed.

(** The sheet with a distance ['abc']. *)
Lemma most_runs_record_not_void_witness :
  no_data (df_of sheet_bad_km) = false /\ (1 <= most_runs (df_of sheet_bad_km))%nat.
Proof.
  split; [reflexivity|].
  exact (proj1 (@most_runs_record_not_void (df_of sheet_bad_km) eq_refl)).
Defined.
